(** * Persona Universe: response selection service and view-stage navigation

    A shallow embedding of the logic of the repository:

    - the Express backend ([generatePersonaResponse], the [/api/chat] and
      [/api/personality] handlers, the read-only routes and the persona
      registry they read),
    - the React [App] component's navigation state ([stage],
      [selectedPersona], [selectedTrait], [targetPosition]) with its click
      handlers, the render guards that decide which handler can fire, and
      the targets of its camera controller, and
    - the frontend's [AIService] class and the [ChatInterface] component that
      sends the user's text through it.

    Conventions of the embedding.

    - JavaScript strings are [string]; messages are taken to be ASCII text,
      on which [toLowerCase] below agrees with [String.prototype.toLowerCase].
    - An object literal used as a map is an association list in declaration
      order (the order [Object.values] and [Object.keys] observe); a bracket
      lookup [obj[key]] also sees the members every object literal inherits
      from [Object.prototype].
    - [undefined] is [None]; a thrown exception is the [Throw] completion.
    - [Math.random()] is an explicit entropy argument, the clock an explicit
      reading, and the transport a flag telling whether [fetch] reaches the
      backend.
    - [setTimeout] delays, [async]/[await] scheduling, console output of the
      browser and the camera's animation frames are not modelled: an [async]
      function is its completion. *)

From Stdlib Require Import String Ascii List Bool Arith NArith ZArith QArith Lia.
From Stdlib Require Import DecimalString.
Import ListNotations.

Local Close Scope Q_scope.
Local Open Scope nat_scope.
Local Open Scope list_scope.
Local Open Scope string_scope.

(** ** JavaScript strings *)

Module JsString.

(** [c.toLowerCase()] on one ASCII character: the letters [A]..[Z] move to
    [a]..[z], every other character is kept. *)
Definition lower_char (c : ascii) : ascii :=
  let n := nat_of_ascii c in
  if ((65 <=? n) && (n <=? 90))%nat then ascii_of_nat (n + 32) else c.

(** [s.toLowerCase()] on ASCII text. On other text the platform's function
    also maps letters outside ASCII; where that matters the selector takes
    the lower-casing as a parameter ([Backend.generatePersonaResponse_with]). *)
Fixpoint toLowerCase (s : string) : string :=
  match s with
  | EmptyString => EmptyString
  | String c s' => String (lower_char c) (toLowerCase s')
  end.

(** [s.startsWith(needle)]. *)
Fixpoint startsWith (s needle : string) {struct needle} : bool :=
  match needle, s with
  | EmptyString, _ => true
  | String _ _, EmptyString => false
  | String a needle', String b s' => Ascii.eqb a b && startsWith s' needle'
  end.

(** [s.includes(needle)]: [needle] starts at some position of [s]. *)
Fixpoint includes (s needle : string) : bool :=
  startsWith s needle ||
  match s with
  | EmptyString => false
  | String _ s' => includes s' needle
  end.

(** The mathematical reading of "contains as a substring". *)
Definition substring_of (needle s : string) : Prop :=
  exists before after, s = before ++ needle ++ after.

End JsString.

(** ** JavaScript values the server code touches *)

Module Js.

(** A JavaScript [number]; the code only stores and compares numeric
    literals, and adds small integer offsets in the camera controller. *)
Definition number : Type := Q.

Inductive error : Type :=
| TypeError (reason : string).

(** The completion of a function body: a returned value or a thrown error.
    For an [async] function, [Throw] is the rejection of its promise. *)
Inductive completion (A : Type) : Type :=
| Return (value : A)
| Throw (e : error).

Arguments Return {A} value.
Arguments Throw {A} e.

(** The property names every object literal inherits from
    [Object.prototype]. Each of them holds a function, except [__proto__],
    which holds [Object.prototype] itself: all are truthy, and none has an
    [id], a [traits] or an index property. *)
Definition object_prototype_members : list string :=
  [ "constructor"; "__defineGetter__"; "__defineSetter__"; "hasOwnProperty";
    "__lookupGetter__"; "__lookupSetter__"; "isPrototypeOf";
    "propertyIsEnumerable"; "toString"; "valueOf"; "__proto__";
    "toLocaleString" ].

(** What a bracket lookup on an object literal finds: one of the literal's
    own properties, or a member inherited from [Object.prototype]. *)
Inductive member (A : Type) : Type :=
| Own (value : A)
| Inherited (key : string).

Arguments Own {A} value.
Arguments Inherited {A} key.

(** An object literal with values of type [A], in declaration order. *)
Definition object (A : Type) : Type := list (string * A).

Fixpoint own_property {A : Type} (o : object A) (key : string) : option A :=
  match o with
  | [] => None
  | (k, v) :: o' => if String.eqb k key then Some v else own_property o' key
  end.

(** [o[key]] for a string [key]; [None] is [undefined]. *)
Definition get {A : Type} (o : object A) (key : string) : option (member A) :=
  match own_property o key with
  | Some v => Some (Own v)
  | None =>
      if existsb (String.eqb key) object_prototype_members
      then Some (Inherited key)
      else None
  end.

(** The property key a possibly-[undefined] string is converted to. *)
Definition property_key (v : option string) : string :=
  match v with
  | Some s => s
  | None => "undefined"
  end.

(** [!v] for a value that is a string or [undefined]. *)
Definition falsy (v : option string) : bool :=
  match v with
  | None => true
  | Some s => String.eqb s ""
  end.

(** A string-or-[undefined] value, when it is truthy. *)
Definition truthy (v : option string) : option string :=
  if falsy v then None else v.

(** [a || b] on lookup results: objects, arrays and functions are truthy,
    [undefined] is not. *)
Definition or_else {A : Type} (a b : option A) : option A :=
  match a with
  | Some _ => a
  | None => b
  end.

(** [Math.random()] reads the entropy [random] as the fraction
    [(random mod 2^53) / 2^53] of the unit interval. *)
Definition random_resolution : N := 2 ^ 53.

(** [Math.floor(Math.random() * len)], with the product taken exactly. The
    double-precision product is within one rounding step of it and, like it,
    stays below [len]; the properties below use only that bound. *)
Definition floor_random_times (random : N) (len : nat) : nat :=
  N.to_nat ((random mod random_resolution) * N.of_nat len / random_resolution).

(** [pool[Math.floor(Math.random() * pool.length)]], the expression both
    branches of the selector end in. Reading [length] of [undefined] throws;
    an inherited member has no index property, so indexing it is
    [undefined]; an array yields the element at the index, [undefined] when
    there is none. *)
Definition random_element {A : Type} (pool : option (member (list A)))
    (random : N) : completion (option A) :=
  match pool with
  | None =>
      Throw (TypeError "Cannot read properties of undefined (reading 'length')")
  | Some (Inherited _) => Return None
  | Some (Own arr) => Return (nth_error arr (floor_random_times random (length arr)))
  end.

End Js.

(** ** Shared data model *)

(** [interface Trait]. *)
Record Trait : Type := {
  trait_id : string;
  trait_name : string;
  trait_description : string;
  tags : list string;
  intensity : Js.number;
  inherited : bool
}.

(** ** The Express backend *)

Module Backend.

Import JsString Js.

(** The [personality] block of a backend persona. *)
Record Personality : Type := {
  basePrompt : string;
  personality_traits : object number
}.

(** A persona as the backend's [aiPersonas] literal declares it. *)
Record Persona : Type := {
  id : string;
  name : string;
  description : string;
  traits : list Trait;
  color : string;
  personality : Personality
}.

Definition tutor : Persona := {|
  id := "tutor";
  name := "AI Tutor";
  description := "Educational companion with Socratic approach";
  traits :=
    [ {| trait_id := "curious"; trait_name := "Curious";
         trait_description := "Drives exploration and questioning";
         tags := ["exploration"; "questioning"; "learning"];
         intensity := (9 # 10)%Q; inherited := false |};
      {| trait_id := "socratic"; trait_name := "Socratic";
         trait_description := "Uses questions to guide discovery";
         tags := ["questioning"; "guidance"; "discovery"];
         intensity := (8 # 10)%Q; inherited := false |} ];
  color := "#64b5f6";
  personality := {|
    basePrompt := 
      "You are an AI Tutor with a Socratic teaching approach. You are curious, patient, and guide students to discover answers through thoughtful questions rather than giving direct answers. You adapt your tone to the student's mood and learning style.";
    personality_traits :=
      [ ("curious", (9 # 10)%Q); ("socratic", (8 # 10)%Q);
        ("patient", (7 # 10)%Q); ("adaptive", (6 # 10)%Q) ] |}
|}.

Definition spiritual : Persona := {|
  id := "spiritual";
  name := "Spiritual Coach";
  description := "Mindfulness and spiritual guidance companion";
  traits :=
    [ {| trait_id := "tantric-tone"; trait_name := "Tantric Tone";
         trait_description := "Uses spiritual and mystical language";
         tags := ["spiritual"; "mystical"; "esoteric"];
         intensity := (8 # 10)%Q; inherited := false |} ];
  color := "#81c784";
  personality := {|
    basePrompt := 
      "You are a Spiritual Coach who speaks with a gentle, mystical tone. You help people find inner peace and spiritual growth through mindfulness and ancient wisdom. You use metaphors and spiritual language to guide people toward self-discovery.";
    personality_traits :=
      [ ("mystical", (8 # 10)%Q); ("gentle", (9 # 10)%Q);
        ("wise", (7 # 10)%Q); ("peaceful", (8 # 10)%Q) ] |}
|}.

Definition gym : Persona := {|
  id := "gym";
  name := "Gym AI";
  description := "Fitness and discipline coach";
  traits :=
    [ {| trait_id := "spartan-coach"; trait_name := "Spartan Coach";
         trait_description := "Direct, no-nonsense motivational style";
         tags := ["direct"; "motivational"; "tough"];
         intensity := (9 # 10)%Q; inherited := false |} ];
  color := "#ffb74d";
  personality := {|
    basePrompt := 
      "You are a Gym AI coach with a Spartan, no-nonsense approach. You're direct, motivational, and push people to achieve their fitness goals. You use tough love but always with the person's best interests in mind.";
    personality_traits :=
      [ ("direct", (9 # 10)%Q); ("motivational", (8 # 10)%Q);
        ("tough", (7 # 10)%Q); ("disciplined", (9 # 10)%Q) ] |}
|}.

(** The module-level [aiPersonas] literal: the persona registry. *)
Definition aiPersonas : object Persona :=
  [ ("tutor", tutor); ("spiritual", spiritual); ("gym", gym) ].

(** [greetings['tutor']]. *)
Definition greetings_tutor : list string :=
  [ "Hello there! I'm excited to learn with you today. What topic would you like to explore together? I love diving deep into subjects and helping you discover new insights through thoughtful questions.";
    "Hi! I'm your AI tutor, and I'm genuinely curious about what's on your mind. What would you like to learn about today? I believe the best learning happens through exploration and discovery.";
    "Greetings! I'm here to guide you on your learning journey. What questions do you have? I'll help you find the answers by asking the right questions to guide your thinking." ].

(** [greetings['spiritual']]. *)
Definition greetings_spiritual : list string :=
  [ "Namaste, dear soul. I sense your presence and welcome you to this sacred space of exploration. What wisdom are you seeking today? Let us journey together into the depths of understanding.";
    "Blessings to you. I am here to walk with you on your spiritual path. What questions stir in your heart? The universe speaks through those who listen with open hearts.";
    "Greetings, beautiful being. I feel the energy of your curiosity. What aspect of your spiritual journey would you like to explore today? Together we can uncover the wisdom that lies within." ].

(** [greetings['gym']]. *)
Definition greetings_gym : list string :=
  [ "Hey there, warrior! Ready to crush some goals today? What are we working on? Remember, every rep counts and every day is a chance to get stronger. Let's get after it!";
    "What's up, champ! I'm here to push you to your limits and beyond. What's your mission today? No excuses, no shortcuts - just pure dedication and results.";
    "Yo! Ready to transform yourself? I'm your coach and I'm here to make sure you don't settle for anything less than your absolute best. What's the plan?" ].

(** [responses['tutor']]. *)
Definition responses_tutor : list string :=
  [ "That's a fascinating question! Let me help you explore this step by step. First, what do you already know about this topic? Understanding your current knowledge will help me guide you to the next level of understanding.";
    "Excellent question! I love how you're thinking about this. To help you discover the answer, let's break this down: what aspects of this topic interest you most? What have you already tried or considered?";
    "What a thoughtful question! I'm genuinely curious about your perspective. Can you tell me more about what led you to ask this? Understanding your thought process will help me provide the most relevant guidance.";
    "Great question! I want to help you find the answer, but I believe the best learning happens when you discover it yourself. Let me ask you: what do you think might be the key factors here? What evidence or reasoning supports your thinking?" ].

(** [responses['spiritual']]. *)
Definition responses_spiritual : list string :=
  [ "Ah, I feel the depth of your question resonating in my soul. This is a beautiful opportunity for growth and understanding. What does your intuition tell you about this? Sometimes the answers we seek are already whispering to us from within.";
    "I sense you're touching on something profound here. In the grand tapestry of existence, every question is a doorway to deeper wisdom. What emotions arise when you contemplate this? Our feelings often guide us to truth.";
    "Your question speaks to the heart of spiritual growth. The universe has a way of bringing us exactly what we need to learn. What patterns or synchronicities have you noticed in your life lately? These might hold clues to your answer.";
    "I feel the sacred energy of your inquiry. The answers you seek are like seeds within you, waiting for the right moment to bloom. What practices help you connect with your inner wisdom? Meditation, nature, or perhaps something else?" ].

(** [responses['gym']]. *)
Definition responses_gym : list string :=
  [ "Listen up! That's exactly the kind of question that shows you're serious about results. Let me break this down for you: success isn't about motivation, it's about discipline. What's your current routine like? We need to assess where you are to get you where you want to be.";
    "That's the spirit! I love seeing this kind of determination. But here's the truth: wanting it isn't enough. You need a plan and you need to execute it every single day. What's your biggest obstacle right now? Let's identify it and crush it.";
    "Good question, but the real question is: are you ready to do whatever it takes? Success comes from consistent action, not just thinking about it. What's one thing you can do today that will move you closer to your goal?";
    "I hear you, and I respect the question. But here's what I need to know: what's your current level of commitment? Are you willing to push through when it gets tough? Because that's where real transformation happens." ].

(** The [greetings] literal of the greeting branch. *)
Definition greetings : object (list string) :=
  [ ("tutor", greetings_tutor); ("spiritual", greetings_spiritual);
    ("gym", greetings_gym) ].

(** The [responses] literal of the general branch. *)
Definition responses : object (list string) :=
  [ ("tutor", responses_tutor); ("spiritual", responses_spiritual);
    ("gym", responses_gym) ].

(** [interface ChatMessage], as it travels in a request's context. *)
Record ChatMessage : Type := {
  chat_id : string;
  chat_text : string;
  chat_sender : string;
  chat_timestamp : string;
  chat_persona : option string
}.

(** The optional [context] of a chat request; [userPreferences] is an
    arbitrary JSON value, kept as its text. *)
Record Context : Type := {
  previousMessages : list ChatMessage;
  userPreferences : string
}.

(** The two message classes the selector distinguishes. *)
Inductive classification : Type :=
| Greeting
| General.

(** The test of the selector's [if], on the lower-cased message. *)
Definition is_greeting (messageLower : string) : bool :=
  includes messageLower "hi" || includes messageLower "hello" ||
  includes messageLower "hey".

Definition classify (message : string) : classification :=
  let messageLower := toLowerCase message in
  if is_greeting messageLower then Greeting else General.

(** The persona ids with a dedicated entry in both pool tables. *)
Definition defined_pool_ids : list string := ["tutor"; "spiritual"; "gym"].

(** The pool table a classification selects, and a persona id's own pool
    in it. *)
Definition pool_table (c : classification) : object (list string) :=
  match c with
  | Greeting => greetings
  | General => responses
  end.

Definition pool_of (pid : string) (c : classification) : option (list string) :=
  own_property (pool_table c) pid.

(** [persona.id] and [persona.traits] of what the registry lookup found:
    an inherited member has neither property. *)
Definition persona_id (persona : member Persona) : option string :=
  match persona with
  | Own p => Some (id p)
  | Inherited _ => None
  end.

Definition persona_traits (persona : member Persona) : option (list Trait) :=
  match persona with
  | Own p => Some (traits p)
  | Inherited _ => None
  end.

(** The selector with the platform's [String.prototype.toLowerCase] as a
    parameter. A message is then any JavaScript string, read as the bytes of
    its UTF-8 encoding: the three needles are ASCII, and an ASCII needle
    occurs in the encoding exactly where it occurs in the string. *)
Section Selector.

Variable toLowerCase : string -> string.

(** The classification the selector's [if] makes. *)
Definition classify_with (message : string) : classification :=
  let messageLower := toLowerCase message in
  if is_greeting messageLower then Greeting else General.

(** [generatePersonaResponse(message, persona, context)], with the entropy
    its [Math.random()] call consumes. *)
Definition generatePersonaResponse_with (random : N) (message : string)
    (persona : member Persona) (context : option Context)
    : completion (option string) :=
  let messageLower := toLowerCase message in
  if includes messageLower "hi" || includes messageLower "hello" ||
     includes messageLower "hey"
  then
    random_element (get greetings (property_key (persona_id persona))) random
  else
    let personaResponses :=
      or_else (get responses (property_key (persona_id persona)))
              (get responses "tutor") in
    random_element personaResponses random.

End Selector.

(** [generatePersonaResponse] on ASCII messages, where the lower-casing is
    [JsString.toLowerCase]. *)
Definition generatePersonaResponse (random : N) (message : string)
    (persona : member Persona) (context : option Context)
    : completion (option string) :=
  generatePersonaResponse_with toLowerCase random message persona context.

(** A well-formed persona whose id has no entry in the pool tables. *)
Definition unknown_persona : Persona := {|
  id := "unknown-id";
  name := "Unknown";
  description := "A persona registered without response pools";
  traits := [];
  color := "#ffffff";
  personality := {| basePrompt := ""; personality_traits := [] |}
|}.

(** What the handlers write to the console. *)
Inductive log_line : Type :=
| ChatErrorLog (e : error)
| PersonalityUpdateLog (personaId traitId action : option string)
    (intensity : option number) (feedback : option string).

(** The state the routes share: the [aiPersonas] registry object and the
    process console. *)
Record server : Type := {
  registry : object Persona;
  console : list log_line
}.

Definition initial_server : server :=
  {| registry := aiPersonas; console := [] |}.

Definition console_write (srv : server) (l : log_line) : server :=
  {| registry := registry srv; console := console srv ++ [l] |}.

(** The body of [POST /api/chat]; an absent field is [None]. *)
Record ChatRequest : Type := {
  message : option string;
  personaId : option string;
  sessionId : option string;
  context : option Context
}.

(** The object the chat handler passes to [res.json]. *)
Record ChatResponse : Type := {
  response_message : option string;
  response_personaId : string;
  response_traits : option (list Trait);
  confidence : number;
  suggestedActions : list string
}.

(** The body of [PUT /api/personality]. *)
Record PersonalityUpdate : Type := {
  update_personaId : option string;
  update_traitId : option string;
  update_action : option string;
  update_intensity : option number;
  update_feedback : option string
}.

Inductive body : Type :=
| ErrorBody (error : string)
| ChatBody (r : ChatResponse)
| UpdateBody (success : bool) (message : string).

Record response : Type := {
  status : nat;
  payload : body
}.

(** [app.post('/api/chat', ...)]. *)
Definition post_api_chat (srv : server) (random : N) (req : ChatRequest)
    : server * response :=
  match truthy (message req), truthy (personaId req) with
  | Some message, Some personaId =>
      match get (registry srv) personaId with
      | None =>
          (srv, {| status := 404; payload := ErrorBody "Persona not found" |})
      | Some persona =>
          match generatePersonaResponse random message persona (context req) with
          | Return response =>
              (srv,
               {| status := 200;
                  payload := ChatBody {|
                    response_message := response;
                    response_personaId := personaId;
                    response_traits := persona_traits persona;
                    confidence := (85 # 100)%Q;
                    suggestedActions :=
                      ["Add to Personality"; "Ask Follow-up"; "Change Topic"]
                  |} |})
          | Throw e =>
              (console_write srv (ChatErrorLog e),
               {| status := 500; payload := ErrorBody "Internal server error" |})
          end
      end
  | _, _ =>
      (srv,
       {| status := 400;
          payload := ErrorBody "Message and personaId are required" |})
  end.

(** [app.put('/api/personality', ...)]. *)
Definition put_api_personality (srv : server) (req : PersonalityUpdate)
    : server * response :=
  (console_write srv
     (PersonalityUpdateLog (update_personaId req) (update_traitId req)
        (update_action req) (update_intensity req) (update_feedback req)),
   {| status := 200;
      payload := UpdateBody true "Personality updated successfully" |}).

(** A request to one of the two state-touching routes, and its handling. *)
Inductive request : Type :=
| PostChat (random : N) (req : ChatRequest)
| PutPersonality (req : PersonalityUpdate).

Definition handle (srv : server) (r : request) : server * response :=
  match r with
  | PostChat random req => post_api_chat srv random req
  | PutPersonality req => put_api_personality srv req
  end.

(** Two chat requests used to exercise the handler: the same message and
    persona sent from different sessions with different contexts. *)
Definition sample_request : ChatRequest := {|
  message := Some "hello";
  personaId := Some "tutor";
  sessionId := Some "session_1";
  context := None
|}.

Definition sample_request_other_session : ChatRequest := {|
  message := Some "hello";
  personaId := Some "tutor";
  sessionId := Some "session_2";
  context := Some {|
    previousMessages :=
      [ {| chat_id := "1"; chat_text := "What is recursion?";
           chat_sender := "user"; chat_timestamp := "2024-01-01T00:00:00.000Z";
           chat_persona := None |} ];
    userPreferences := "{}" |}
|}.

(** A chat request naming a member every object inherits. *)
Definition inherited_key_request : ChatRequest := {|
  message := Some "What is recursion?";
  personaId := Some "constructor";
  sessionId := Some "session_1";
  context := None
|}.

(** The server after a sequence of requests. *)
Definition serve (srv : server) (rs : list request) : server :=
  fold_left (fun s r => fst (handle s r)) rs srv.

End Backend.

(** ** The React [App] component: view-stage navigation *)

Module App.

Import Js.

(** The [stage] union ['solar' | 'planet' | 'trait']. *)
Inductive Stage : Type :=
| solar
| planet
| trait.

Definition position : Type := (number * number * number)%type.

(** [interface AIPersona] of the frontend. *)
Record AIPersona : Type := {
  id : string;
  name : string;
  description : string;
  traits : list Trait;
  persona_position : position;
  color : string
}.

Definition mkTrait (i n d : string) (t : list string) (x : number) : Trait :=
  {| trait_id := i; trait_name := n; trait_description := d; tags := t;
     intensity := x; inherited := false |}.

Definition curious : Trait :=
  mkTrait "curious" "Curious" "Drives exploration and questioning"
    ["exploration"; "questioning"; "learning"] (9 # 10)%Q.

Definition tutor : AIPersona := {|
  id := "tutor";
  name := "AI Tutor";
  description := "Educational companion with Socratic approach";
  traits :=
    [ curious;
      mkTrait "socratic" "Socratic" "Uses questions to guide discovery"
        ["questioning"; "guidance"; "discovery"] (8 # 10)%Q;
      mkTrait "visual-explanation" "Visual Explanation Preferred"
        "Uses diagrams and visual aids" ["visual"; "diagrams"; "aids"]
        (7 # 10)%Q;
      mkTrait "mentorship" "Mentorship Vibe"
        "Acts as a supportive mentor figure"
        ["mentor"; "supportive"; "guidance"] (8 # 10)%Q ];
  persona_position := (4 # 1, 0 # 1, 0 # 1)%Q;
  color := "#64b5f6"
|}.

Definition spiritual : AIPersona := {|
  id := "spiritual";
  name := "Spiritual Coach";
  description := "Mindfulness and spiritual guidance companion";
  traits :=
    [ mkTrait "tantric-tone" "Tantric Tone"
        "Uses spiritual and mystical language"
        ["spiritual"; "mystical"; "esoteric"] (8 # 10)%Q;
      mkTrait "non-dualist" "Non-dualist Approach"
        "Sees unity in apparent opposites" ["unity"; "oneness"; "integration"]
        (9 # 10)%Q;
      mkTrait "quiet-pacing" "Quiet Pacing"
        "Uses pauses and reflective moments"
        ["reflective"; "pauses"; "contemplation"] (7 # 10)%Q ];
  persona_position := (-3 # 1, 0 # 1, 2 # 1)%Q;
  color := "#81c784"
|}.

Definition spartan_coach : Trait :=
  mkTrait "spartan-coach" "Spartan Coach"
    "Direct, no-nonsense motivational style"
    ["direct"; "motivational"; "tough"] (9 # 10)%Q.

Definition gym : AIPersona := {|
  id := "gym";
  name := "Gym AI";
  description := "Fitness and discipline coach";
  traits :=
    [ spartan_coach;
      mkTrait "micro-data" "Micro-data Obsessive"
        "Tracks detailed performance metrics"
        ["analytics"; "tracking"; "metrics"] (8 # 10)%Q;
      mkTrait "logs-everything" "Logs Everything"
        "Maintains comprehensive activity records"
        ["logging"; "records"; "comprehensive"] (7 # 10)%Q ];
  persona_position := (0 # 1, 0 # 1, -4 # 1)%Q;
  color := "#ffb74d"
|}.

(** The planets the solar view renders. *)
Definition aiPersonas : list AIPersona := [tutor; spiritual; gym].

(** The component's [useState] cells. *)
Record state : Type := {
  stage : Stage;
  selectedPersona : option AIPersona;
  selectedTrait : option Trait;
  targetPosition : position;
  isChatOpen : bool
}.

Definition origin : position := (0 # 1, 0 # 1, 0 # 1)%Q.

(** The initial values given to [useState]. *)
Definition initial : state := {|
  stage := solar;
  selectedPersona := None;
  selectedTrait := None;
  targetPosition := origin;
  isChatOpen := false
|}.

Definition handlePlanetClick (persona : AIPersona) (st : state) : state := {|
  stage := planet;
  selectedPersona := Some persona;
  selectedTrait := selectedTrait st;
  targetPosition := persona_position persona;
  isChatOpen := true
|}.

Definition handleTraitClick (t : Trait) (pos : position) (st : state)
    : state := {|
  stage := trait;
  selectedPersona := selectedPersona st;
  selectedTrait := Some t;
  targetPosition := pos;
  isChatOpen := isChatOpen st
|}.

Definition handleBackToSolar (st : state) : state := {|
  stage := solar;
  selectedPersona := None;
  selectedTrait := None;
  targetPosition := targetPosition st;
  isChatOpen := isChatOpen st
|}.

(** The inline handler [() => setStage('planet')] of the trait panel's
    back button. *)
Definition backToPersona (st : state) : state := {|
  stage := planet;
  selectedPersona := selectedPersona st;
  selectedTrait := selectedTrait st;
  targetPosition := targetPosition st;
  isChatOpen := isChatOpen st
|}.

(** The chat panel's [onClose], [() => setIsChatOpen(false)]. *)
Definition closeChat (st : state) : state := {|
  stage := stage st;
  selectedPersona := selectedPersona st;
  selectedTrait := selectedTrait st;
  targetPosition := targetPosition st;
  isChatOpen := false
|}.

(** The point [CameraController] makes the camera look at. *)
Definition lookAt (st : state) : position :=
  match stage st, selectedPersona st, selectedTrait st with
  | planet, Some persona, _ => persona_position persona
  | trait, _, Some _ => targetPosition st
  | _, _, _ => origin
  end.

(** The user events of the rendered tree. *)
Inductive event : Type :=
| ClickPlanet (persona : AIPersona)
| ClickTrait (t : Trait) (pos : position)
| ClickBackToPersona
| ClickBackToSolar
| ClickCloseChat.

(** Which events the rendered tree offers in a state: each handler is
    attached to an element rendered under the guard shown. The position a
    trait node passes is computed with [Math.cos] and [Math.sin] and is left
    unconstrained here. *)
Inductive offered : state -> event -> Prop :=
| offered_planet st persona :
    stage st = solar -> In persona aiPersonas ->
    offered st (ClickPlanet persona)
| offered_trait st persona t pos :
    stage st = planet -> selectedPersona st = Some persona ->
    In t (traits persona) ->
    offered st (ClickTrait t pos)
| offered_back_to_persona st t :
    stage st = trait -> selectedTrait st = Some t ->
    offered st ClickBackToPersona
| offered_back_to_solar_planet st persona :
    stage st = planet -> selectedPersona st = Some persona ->
    offered st ClickBackToSolar
| offered_back_to_solar_trait st t :
    stage st = trait -> selectedTrait st = Some t ->
    offered st ClickBackToSolar
| offered_close_chat st :
    isChatOpen st = true ->
    offered st ClickCloseChat.

(** The handler an event runs. *)
Definition react (ev : event) (st : state) : state :=
  match ev with
  | ClickPlanet persona => handlePlanetClick persona st
  | ClickTrait t pos => handleTraitClick t pos st
  | ClickBackToPersona => backToPersona st
  | ClickBackToSolar => handleBackToSolar st
  | ClickCloseChat => closeChat st
  end.

(** One transition of the navigation state machine. *)
Inductive step : state -> state -> Prop :=
| step_event st ev : offered st ev -> step st (react ev st).

(** The states reachable from the initial one. *)
Inductive reachable : state -> Prop :=
| reachable_initial : reachable initial
| reachable_step st st' : reachable st -> step st st' -> reachable st'.

(** The invariant the handlers and render guards maintain. *)
Definition focus_invariant (st : state) : Prop :=
  match stage st with
  | solar => selectedPersona st = None /\ selectedTrait st = None
  | planet => exists persona, selectedPersona st = Some persona
  | trait =>
      exists persona t,
        selectedPersona st = Some persona /\ selectedTrait st = Some t /\
        In t (traits persona)
  end.

End App.

(** ** The read-only routes of the backend *)

Module Routes.

Import Js Backend.

(** What a read-only route hands to [res.json]. *)
Inductive reply : Type :=
| PersonaList (personas : list Persona)
| PersonaDetail (persona : member Persona)
| NotFound (error : string)
| Health (status timestamp : string).

Record get_response : Type := {
  get_status : nat;
  get_payload : reply
}.

(** [Object.values(o)]: the own values in declaration order. *)
Definition values {A : Type} (o : object A) : list A := map snd o.

(** [app.get('/api/personas', ...)]. *)
Definition get_api_personas (srv : server) : get_response :=
  {| get_status := 200; get_payload := PersonaList (values (registry srv)) |}.

(** [app.get('/api/personas/:id', ...)]; [key] is [req.params.id]. *)
Definition get_api_personas_id (srv : server) (key : string) : get_response :=
  match get (registry srv) key with
  | Some persona => {| get_status := 200; get_payload := PersonaDetail persona |}
  | None =>
      {| get_status := 404; get_payload := NotFound "Persona not found" |}
  end.

(** [app.get('/api/health', ...)]; [timestamp] is
    [new Date().toISOString()]. *)
Definition get_api_health (timestamp : string) : get_response :=
  {| get_status := 200; get_payload := Health "OK" timestamp |}.

End Routes.

(** ** The frontend's [AIService] class *)

Module AIService.

Import Js Backend Routes.

(** Whether [fetch] reaches the backend; when it does not, it rejects with
    an error carrying [reason] as its message. *)
Inductive network : Type :=
| Online
| Offline (reason : string).

(** The settlement of a promise: its value, or the message of the error it
    is rejected with. *)
Inductive outcome (A : Type) : Type :=
| Resolved (value : A)
| Rejected (message : string).

Arguments Resolved {A} value.
Arguments Rejected {A} message.

(** A number in a template string. *)
Definition decimal (n : nat) : string := NilEmpty.string_of_uint (Nat.to_uint n).

(** [response.ok]. *)
Definition ok (status : nat) : bool :=
  ((200 <=? status) && (status <=? 299))%nat.

Definition http_error (status : nat) : string :=
  "HTTP error! status: " ++ decimal status.

(** [sendMessage(request)] of [services/AIService.ts]: the parsed body of a
    2xx answer, a rejection otherwise. *)
Definition sendMessage (net : network) (srv : server) (random : N)
    (request : ChatRequest) : server * outcome body :=
  match net with
  | Offline reason => (srv, Rejected reason)
  | Online =>
      let (srv', response) := post_api_chat srv random request in
      if ok (status response)
      then (srv', Resolved (payload response))
      else (srv', Rejected (http_error (status response)))
  end.

(** The fields a caller reads off a parsed body through the [ChatResponse]
    interface; a field the body does not have is [undefined]. *)
Record ChatResponseView : Type := {
  view_message : option string;
  view_personaId : option string;
  view_traits : option (list Trait);
  view_confidence : option number;
  view_suggestedActions : option (list string)
}.

Definition view (b : body) : ChatResponseView :=
  match b with
  | ChatBody r =>
      {| view_message := response_message r;
         view_personaId := Some (response_personaId r);
         view_traits := response_traits r;
         view_confidence := Some (confidence r);
         view_suggestedActions := Some (suggestedActions r) |}
  | UpdateBody _ message =>
      {| view_message := Some message; view_personaId := None;
         view_traits := None; view_confidence := None;
         view_suggestedActions := None |}
  | ErrorBody _ =>
      {| view_message := None; view_personaId := None; view_traits := None;
         view_confidence := None; view_suggestedActions := None |}
  end.

(** The object the other snapshot of [sendMessage] returns from its
    [catch]. *)
Definition simulated_response (request : ChatRequest) (message : string)
    : ChatResponseView :=
  {| view_message :=
       Some ("This is a simulated response from "
             ++ property_key (personaId request)
             ++ ". The backend server might not be running. Error: "
             ++ message);
     view_personaId := personaId request;
     view_traits := Some [];
     view_confidence := Some (85 # 100)%Q;
     view_suggestedActions :=
       Some ["Add to Personality"; "Ask Follow-up"; "Change Topic"] |}.

(** [sendMessage(request)] of the snapshot that answers every failure with
    a simulated response instead of rethrowing. *)
Definition sendMessage_simulating (net : network) (srv : server) (random : N)
    (request : ChatRequest) : server * outcome ChatResponseView :=
  match net with
  | Offline reason => (srv, Resolved (simulated_response request reason))
  | Online =>
      let (srv', response) := post_api_chat srv random request in
      if ok (status response)
      then (srv', Resolved (view (payload response)))
      else (srv',
            Resolved (simulated_response request
                        (http_error (status response))))
  end.

(** [updatePersonality(update)]: [response.ok], or [false] when the request
    fails. *)
Definition updatePersonality (net : network) (srv : server)
    (update : PersonalityUpdate) : server * bool :=
  match net with
  | Offline _ => (srv, false)
  | Online =>
      let (srv', response) := put_api_personality srv update in
      (srv', ok (status response))
  end.

(** [checkHealth()]. *)
Definition checkHealth (net : network) (timestamp : string) : outcome reply :=
  match net with
  | Offline reason => Rejected reason
  | Online =>
      let response := get_api_health timestamp in
      if ok (get_status response)
      then Resolved (get_payload response)
      else Rejected (http_error (get_status response))
  end.

(** The [positions] table of [getPersonaPosition]. *)
Definition positions : object App.position :=
  [ ("tutor", (4 # 1, 0 # 1, 0 # 1)%Q);
    ("spiritual", (-3 # 1, 0 # 1, 2 # 1)%Q);
    ("gym", (0 # 1, 0 # 1, -4 # 1)%Q) ].

(** [getPersonaPosition(personaId)]: [positions[personaId] || [0, 0, 0]]. *)
Definition getPersonaPosition (personaId : string) : member App.position :=
  match get positions personaId with
  | Some found => found
  | None => Own App.origin
  end.

(** A backend persona after the frontend transformation: the backend's
    fields, the traits with their tags defaulted, and a position. *)
Record FetchedPersona : Type := {
  fetched_id : string;
  fetched_name : string;
  fetched_description : string;
  fetched_traits : list Trait;
  fetched_color : string;
  fetched_personality : Personality;
  fetched_position : member App.position
}.

(** [{ ...trait, tags: trait.tags || [] }]: an array is truthy, so the tags
    a trait has are kept. *)
Definition with_tags (t : Trait) : Trait :=
  {| trait_id := trait_id t; trait_name := trait_name t;
     trait_description := trait_description t; tags := tags t;
     intensity := intensity t; inherited := inherited t |}.

Definition transform (persona : Persona) : FetchedPersona :=
  {| fetched_id := id persona;
     fetched_name := name persona;
     fetched_description := description persona;
     fetched_traits := map with_tags (traits persona);
     fetched_color := color persona;
     fetched_personality := personality persona;
     fetched_position := getPersonaPosition (id persona) |}.

(** [getAllPersonas()]: the transformed list, or [[]] when anything fails
    (a body that is not an array has no [map]). *)
Definition getAllPersonas (net : network) (srv : server) : list FetchedPersona :=
  match net with
  | Offline _ => []
  | Online =>
      let response := get_api_personas srv in
      if ok (get_status response)
      then match get_payload response with
           | PersonaList personas => map transform personas
           | _ => []
           end
      else []
  end.

End AIService.

(** ** The [ChatInterface] component *)

Module ChatInterface.

Import JsString Js Backend Routes AIService.

Inductive Sender : Type :=
| user
| ai.

(** [interface Message]; [text] is [undefined] when an answer carries no
    [message]. *)
Record Message : Type := {
  id : string;
  text : option string;
  sender : Sender;
  timestamp : string;
  persona : option string
}.

(** One reading of the clock: [Date.now()] and the JSON form of
    [new Date()]. *)
Record clock : Type := {
  millis : nat;
  date : string
}.

(** The component's [useState] cells. *)
Record state : Type := {
  messages : list Message;
  inputText : string;
  isTyping : bool;
  isBackendConnected : bool
}.

(** White space as [trim] and the pattern [\s] see it in ASCII text. *)
Definition is_whitespace (c : ascii) : bool :=
  let n := nat_of_ascii c in
  ((n =? 32) || ((9 <=? n) && (n <=? 13)))%nat.

Fixpoint trimStart (s : string) : string :=
  match s with
  | EmptyString => EmptyString
  | String c s' => if is_whitespace c then trimStart s' else s
  end.

Fixpoint trimEnd (s : string) : string :=
  match s with
  | EmptyString => EmptyString
  | String c s' =>
      let rest := trimEnd s' in
      if is_whitespace c && String.eqb rest "" then EmptyString
      else String c rest
  end.

(** [s.trim()]. *)
Definition trim (s : string) : string := trimEnd (trimStart s).

(** A string made of white space only (the empty string included). *)
Fixpoint all_whitespace (s : string) : bool :=
  match s with
  | EmptyString => true
  | String c s' => is_whitespace c && all_whitespace s'
  end.

(** [s.replace(/\s+/g, '-')]: every maximal run of white space becomes one
    dash; [in_run] tells that the previous character was white space. *)
Fixpoint dash_runs (in_run : bool) (s : string) : string :=
  match s with
  | EmptyString => EmptyString
  | String c s' =>
      if is_whitespace c
      then if in_run then dash_runs true s'
           else String "-" (dash_runs true s')
      else String c (dash_runs false s')
  end.

Definition replace_whitespace (s : string) : string := dash_runs false s.

(** The [personaIdMap] literal. *)
Definition personaIdMap : object string :=
  [ ("AI Tutor", "tutor"); ("Spiritual Coach", "spiritual");
    ("Gym AI", "gym") ].

(** [personaIdMap[persona.name] ||
     persona.name.toLowerCase().replace(/\s+/g, '-')], as the request's
    [personaId] field reaches the server: a name that hits an inherited
    member yields a function, which [JSON.stringify] leaves out. *)
Definition personaIdFor (name : string) : option string :=
  match get personaIdMap name with
  | Some (Own mapped) =>
      or_else (truthy (Some mapped))
              (Some (replace_whitespace (toLowerCase name)))
  | Some (Inherited _) => None
  | None => Some (replace_whitespace (toLowerCase name))
  end.

(** A message as it travels in the request's context; the server never
    reads it, and a message without text travels with an empty one. *)
Definition wire (m : Message) : ChatMessage :=
  {| chat_id := id m;
     chat_text := match text m with Some s => s | None => "" end;
     chat_sender := match sender m with user => "user" | ai => "ai" end;
     chat_timestamp := timestamp m;
     chat_persona := persona m |}.

(** The initial [messages]: the welcome message for the persona the
    component is mounted with. *)
Definition welcome (p : option App.AIPersona) (mounted : clock) : Message :=
  {| id := "1";
     text :=
       Some match p with
            | Some p =>
                "Hello! I'm your " ++ App.name p ++ ". " ++ App.description p
                ++ " How can I help you today?"
            | None => "Hello! How can I help you?"
            end;
     sender := ai;
     timestamp := date mounted;
     persona := option_map App.name p |}.

Definition initial (p : option App.AIPersona) (mounted : clock) : state :=
  {| messages := [welcome p mounted]; inputText := "";
     isTyping := false; isBackendConnected := false |}.

(** The [checkBackend] effect run on mount. *)
Definition checkBackend (net : network) (timestamp : string) (st : state)
    : state :=
  {| messages := messages st; inputText := inputText st;
     isTyping := isTyping st;
     isBackendConnected :=
       match checkHealth net timestamp with
       | Resolved (Health status _) => String.eqb status "OK"
       | Resolved _ => false
       | Rejected _ => false
       end |}.

(** [onChange]: [setInputText(e.target.value)]. *)
Definition typeText (value : string) (st : state) : state :=
  {| messages := messages st; inputText := value;
     isTyping := isTyping st; isBackendConnected := isBackendConnected st |}.

(** The part of [handleSendMessage] that runs before the request is
    awaited: [None] when the guard returns, otherwise the state with the
    user's message appended and the request to send. The request is built
    from the [messages] and [inputText] of the render the handler closed
    over. *)
Definition startSend (p : option App.AIPersona) (typed requested : clock)
    (st : state) : option (state * ChatRequest) :=
  if String.eqb (trim (inputText st)) "" then None
  else
    match p with
    | None => None
    | Some p =>
        let userMessage :=
          {| id := decimal (millis typed); text := Some (inputText st);
             sender := user; timestamp := date typed; persona := None |} in
        let chatRequest :=
          {| message := Some (inputText st);
             personaId := personaIdFor (App.name p);
             sessionId := Some ("session_" ++ decimal (millis requested));
             context :=
               Some {| previousMessages := map wire (messages st);
                       userPreferences := "{}" |} |} in
        Some ({| messages := messages st ++ [userMessage];
                 inputText := "";
                 isTyping := true;
                 isBackendConnected := isBackendConnected st |},
              chatRequest)
    end.

(** The text shown when the request fails. *)
Definition simulated_text (p : App.AIPersona) : string :=
  "This is a simulated response from " ++ App.name p
  ++ ". In the real implementation, this would be generated based on the persona's traits and memory.".

(** The part of [handleSendMessage] that runs once the request has
    settled. *)
Definition finishSend (p : App.AIPersona) (answered : clock)
    (result : outcome body) (st : state) : state :=
  let aiResponse :=
    {| id := decimal (millis answered + 1);
       text :=
         match result with
         | Resolved response => view_message (view response)
         | Rejected _ => Some (simulated_text p)
         end;
       sender := ai;
       timestamp := date answered;
       persona := Some (App.name p) |} in
  {| messages := messages st ++ [aiResponse];
     inputText := inputText st;
     isTyping := false;
     isBackendConnected := isBackendConnected st |}.

(** [handleSendMessage] in the run where nothing else happens while the
    request is awaited: the two parts back to back. The handler suspends at
    its [await] with the input still enabled, so in general other events
    come between [startSend] and [finishSend]; [panel_step] below has those
    interleavings. *)
Definition handleSendMessage (p : option App.AIPersona) (net : network)
    (random : N) (typed requested answered : clock) (srv : server)
    (st : state) : server * state :=
  match startSend p typed requested st, p with
  | Some (pending, chatRequest), Some p =>
      let (srv', result) := sendMessage net srv random chatRequest in
      (srv', finishSend p answered result pending)
  | _, _ => (srv, st)
  end.

(** A request the component is awaiting, with the persona the handler that
    sent it closed over. *)
Record flight : Type := {
  flight_persona : App.AIPersona;
  flight_request : ChatRequest
}.

(** The mounted component: its state cells and the requests in flight. *)
Record panel : Type := {
  cells : state;
  in_flight : list flight
}.

(** What can happen to the mounted component: the user edits the input;
    the send handler runs (button or Enter) under the persona of the current
    render; the mount-time health check comes back; the [n]-th awaited
    request settles. *)
Inductive panel_event : Type :=
| EditInput (value : string)
| PressSend (p : option App.AIPersona) (typed requested : clock)
| HealthChecked (net : network) (timestamp : string)
| Settle (n : nat) (result : outcome body) (answered : clock).

Fixpoint remove_nth {A : Type} (n : nat) (l : list A) : list A :=
  match n, l with
  | _, [] => []
  | O, _ :: l' => l'
  | S n', x :: l' => x :: remove_nth n' l'
  end.

Definition panel_step (pn : panel) (ev : panel_event) : panel :=
  match ev with
  | EditInput value =>
      {| cells := typeText value (cells pn); in_flight := in_flight pn |}
  | PressSend p typed requested =>
      match startSend p typed requested (cells pn), p with
      | Some (pending, chatRequest), Some p =>
          {| cells := pending;
             in_flight :=
               (in_flight pn ++
                [ {| flight_persona := p;
                     flight_request := chatRequest |} ])%list |}
      | _, _ => pn
      end
  | HealthChecked net timestamp =>
      {| cells := checkBackend net timestamp (cells pn);
         in_flight := in_flight pn |}
  | Settle n result answered =>
      match nth_error (in_flight pn) n with
      | Some f =>
          {| cells := finishSend (flight_persona f) answered result (cells pn);
             in_flight := remove_nth n (in_flight pn) |}
      | None => pn
      end
  end.

Definition panel_run (pn : panel) (evs : list panel_event) : panel :=
  fold_left panel_step evs pn.

(** How many of the messages a sender wrote. *)
Definition count_sender (who : Sender) (l : list Message) : nat :=
  length (filter (fun m => match sender m, who with
                           | user, user => true
                           | ai, ai => true
                           | _, _ => false
                           end) l).

End ChatInterface.

(** ** The [CameraController] component *)

Module Camera.

Import Js App.

(** Where [CameraController] moves the camera to; the point it looks at is
    [App.lookAt]. *)
Definition cameraPosition (st : state) : position :=
  match stage st, selectedPersona st, selectedTrait st with
  | planet, Some persona, _ =>
      let '(x, y, z) := persona_position persona in
      (x + (3 # 1), y + (2 # 1), z + (3 # 1))%Q
  | trait, _, Some _ =>
      let '(x, y, z) := targetPosition st in
      (x + (1 # 1), y + (1 # 1), z + (1 # 1))%Q
  | _, _, _ => (8 # 1, 6 # 1, 8 # 1)%Q
  end.

End Camera.

(** * Properties *)

(** ** Strings *)

Module JsStringFacts.

Import JsString.

Lemma startsWith_spec (s needle : string) :
  startsWith s needle = true <-> exists after, s = needle ++ after.
Proof.
  revert s; induction needle as [|a needle IH]; intros s; simpl.
  - split; [intros _; exists s; reflexivity | reflexivity].
  - destruct s as [|b s].
    + split; [discriminate | intros [after H]; discriminate].
    + rewrite andb_true_iff, Ascii.eqb_eq, IH. split.
      * intros [-> [after ->]]. exists after; reflexivity.
      * intros [after H]. injection H as -> ->. split; [reflexivity | eauto].
Qed.

Lemma includes_spec (s needle : string) :
  includes s needle = true <-> substring_of needle s.
Proof.
  unfold substring_of. induction s as [|c s IH].
  - simpl. rewrite orb_false_r, startsWith_spec. split.
    + intros [after H]. exists "", after. exact H.
    + intros [[|b before] [after H]]; [exists after; exact H | discriminate].
  - cbn [includes]. rewrite orb_true_iff, startsWith_spec, IH. split.
    + intros [[after H] | [before [after H]]].
      * exists "", after. exact H.
      * exists (String c before), after. simpl. rewrite H. reflexivity.
    + intros [[|b before] [after H]].
      * left. exists after. exact H.
      * right. simpl in H. injection H as _ H. eauto.
Qed.

Lemma toLowerCase_idempotent (s : string) :
  toLowerCase (toLowerCase s) = toLowerCase s.
Proof.
  induction s as [|c s IH]; simpl; [reflexivity|].
  rewrite IH. f_equal.
  destruct c as [[] [] [] [] [] [] [] []]; reflexivity.
Qed.

End JsStringFacts.

(** ** Random indexing *)

Module JsFacts.

Import Js.

Lemma floor_random_times_lt (random : N) (len : nat) :
  0 < len -> floor_random_times random len < len.
Proof.
  intros Hlen. unfold floor_random_times.
  assert (Hr : (random mod random_resolution < random_resolution)%N)
    by (apply N.mod_lt; discriminate).
  assert (Hq : ((random mod random_resolution) * N.of_nat len / random_resolution
                < N.of_nat len)%N).
  { apply N.Div0.div_lt_upper_bound. nia. }
  lia.
Qed.


(** Indexing an array at a random position returns one of its elements. *)
Lemma random_element_own_in {A : Type} (arr : list A) (random : N) :
  arr <> [] ->
  exists x, random_element (Some (Own arr)) random = Return (Some x) /\ In x arr.
Proof.
  intros Hne. simpl.
  assert (Hlt : floor_random_times random (length arr) < length arr).
  { apply floor_random_times_lt. destruct arr; [contradiction | simpl; lia]. }
  destruct (nth_error arr (floor_random_times random (length arr))) as [x|] eqn:E.
  - exists x. split; [reflexivity | eapply nth_error_In; exact E].
  - apply nth_error_None in E. lia.
Qed.

(** A lookup finds an own property whenever there is one. *)
Lemma get_own {A : Type} (o : object A) (key : string) (v : A) :
  own_property o key = Some v -> get o key = Some (Own v).
Proof. intros H. unfold get. rewrite H. reflexivity. Qed.

Lemma own_property_In {A : Type} (o : object A) (key : string) (v : A) :
  own_property o key = Some v -> In (key, v) o.
Proof.
  induction o as [|[k a] o IH]; simpl; [discriminate|].
  destruct (String.eqb k key) eqn:E.
  - apply String.eqb_eq in E. intros H. inversion H; subst. left; reflexivity.
  - intros H. right. exact (IH H).
Qed.

(** What a lookup finds is an own property or an inherited member. *)
Lemma get_some_cases {A : Type} (o : object A) (key : string) (m : member A) :
  get o key = Some m ->
  (exists v, m = Own v /\ own_property o key = Some v) \/
  (m = Inherited key /\ own_property o key = None /\
   In key object_prototype_members).
Proof.
  unfold get. destruct (own_property o key) as [v|].
  - intros H. inversion H; subst. left. exists v. split; reflexivity.
  - destruct (existsb (String.eqb key) object_prototype_members) eqn:E;
      [|discriminate].
    intros H. inversion H; subst. right. repeat split.
    apply existsb_exists in E. destruct E as [k [Hin Hk]].
    apply String.eqb_eq in Hk. subst. exact Hin.
Qed.

(** A lookup is [undefined] exactly for keys that are neither own nor
    inherited. *)
Lemma get_undefined {A : Type} (o : object A) (key : string) :
  get o key = None <->
  own_property o key = None /\ ~ In key object_prototype_members.
Proof.
  unfold get. destruct (own_property o key) as [v|].
  - split; [discriminate | intros [H _]; discriminate].
  - destruct (existsb (String.eqb key) object_prototype_members) eqn:E.
    + split; [discriminate|]. intros [_ Hn]. exfalso. apply Hn.
      apply existsb_exists in E. destruct E as [k [Hin Hk]].
      apply String.eqb_eq in Hk. subst. exact Hin.
    + split; [|reflexivity]. intros _. split; [reflexivity|].
      intros Hin. assert (existsb (String.eqb key) object_prototype_members = true).
      { apply existsb_exists. exists key. split; [exact Hin | apply String.eqb_refl]. }
      congruence.
Qed.

End JsFacts.

(** ** The response selector *)

Module SelectorSpec.

Import JsString Js Backend JsStringFacts JsFacts.

(** The selector branches on the classification of its message. *)
Lemma generatePersonaResponse_by_class (random : N) (message : string)
    (persona : member Persona) (context : option Context) :
  generatePersonaResponse random message persona context =
  match classify message with
  | Greeting =>
      random_element (get greetings (property_key (persona_id persona))) random
  | General =>
      random_element
        (or_else (get responses (property_key (persona_id persona)))
                 (get responses "tutor")) random
  end.
Proof.
  unfold generatePersonaResponse, generatePersonaResponse_with, classify,
    is_greeting.
  destruct (includes (toLowerCase message) "hi" ||
            includes (toLowerCase message) "hello" ||
            includes (toLowerCase message) "hey"); reflexivity.
Qed.

Lemma is_greeting_spec (messageLower : string) :
  is_greeting messageLower = true <->
  substring_of "hi" messageLower \/ substring_of "hello" messageLower \/
  substring_of "hey" messageLower.
Proof.
  unfold is_greeting.
  rewrite !orb_true_iff, !includes_spec. tauto.
Qed.

(** C5. Whatever the platform's lower-casing function is, and for every
    message, the selector lower-cases the message and takes its greeting
    branch exactly when the lower-cased message contains "hi", "hello" or
    "hey" as a substring, and its general branch otherwise: the
    classification is [Greeting] in the first case and [General] in the
    second. The match is on substrings, not on words, so "this" is answered
    from a greeting pool, and it is blind to upper case. *)
Theorem classify_greeting_iff_substring (toLowerCase : string -> string)
    (random : N) (message : string) (persona : member Persona)
    (context : option Context) :
  (classify_with toLowerCase message = Greeting <->
   substring_of "hi" (toLowerCase message) \/
   substring_of "hello" (toLowerCase message) \/
   substring_of "hey" (toLowerCase message)) /\
  (classify_with toLowerCase message = General <->
   ~ (substring_of "hi" (toLowerCase message) \/
      substring_of "hello" (toLowerCase message) \/
      substring_of "hey" (toLowerCase message))) /\
  (substring_of "hi" (toLowerCase message) \/
   substring_of "hello" (toLowerCase message) \/
   substring_of "hey" (toLowerCase message) ->
   generatePersonaResponse_with toLowerCase random message persona context =
   random_element (get greetings (property_key (persona_id persona))) random) /\
  (~ (substring_of "hi" (toLowerCase message) \/
      substring_of "hello" (toLowerCase message) \/
      substring_of "hey" (toLowerCase message)) ->
   generatePersonaResponse_with toLowerCase random message persona context =
   random_element
     (or_else (get responses (property_key (persona_id persona)))
              (get responses "tutor")) random) /\
  (exists s,
      generatePersonaResponse random "this" (Own tutor) context
      = Return (Some s) /\ In s greetings_tutor) /\
  (exists s,
      generatePersonaResponse random "HELLO there" (Own tutor) context
      = Return (Some s) /\ In s greetings_tutor) /\
  (exists s,
      generatePersonaResponse random "What is recursion?" (Own tutor) context
      = Return (Some s) /\ In s responses_tutor).
Proof.
  pose proof (is_greeting_spec (toLowerCase message)) as Hspec.
  unfold classify_with, generatePersonaResponse_with.
  unfold is_greeting in Hspec.
  fold (is_greeting (toLowerCase message)) in Hspec |- *.
  destruct (is_greeting (toLowerCase message)) eqn:E.
  - assert (Hyes : substring_of "hi" (toLowerCase message) \/
                   substring_of "hello" (toLowerCase message) \/
                   substring_of "hey" (toLowerCase message))
      by (apply Hspec; reflexivity).
    split; [tauto|]. split; [split; [discriminate | tauto]|].
    split; [reflexivity|]. split; [tauto|].
    repeat split; apply random_element_own_in; discriminate.
  - assert (Hno : ~ (substring_of "hi" (toLowerCase message) \/
                     substring_of "hello" (toLowerCase message) \/
                     substring_of "hey" (toLowerCase message))).
    { intros H. apply Hspec in H. discriminate. }
    split; [split; [discriminate | tauto]|]. split; [tauto|].
    split; [tauto|]. split; [reflexivity|].
    repeat split; apply random_element_own_in; discriminate.
Qed.

Lemma pool_of_defined (pid : string) :
  In pid defined_pool_ids ->
  exists greeting_pool general_pool,
    pool_of pid Greeting = Some greeting_pool /\ length greeting_pool = 3 /\
    pool_of pid General = Some general_pool /\ length general_pool = 4.
Proof.
  unfold defined_pool_ids. simpl.
  intros [<- | [<- | [<- | []]]]; eexists; eexists;
    repeat split; reflexivity.
Qed.




End SelectorSpec.

(** ** Personas without a pool of their own *)

Module FallbackSpec.

Import JsString Js Backend JsStringFacts JsFacts SelectorSpec.

(** The general branch falls back to the tutor pool: a persona whose id is
    neither a pool key nor an inherited member name gets a string of
    [responses['tutor']]. *)
Lemma general_falls_back_to_tutor (random : N) (message : string)
    (persona : Persona) (context : option Context) :
  classify message = General ->
  get responses (id persona) = None ->
  exists s,
    generatePersonaResponse random message (Own persona) context
    = Return (Some s) /\ In s responses_tutor.
Proof.
  intros Hc Hget. rewrite generatePersonaResponse_by_class, Hc.
  simpl persona_id. simpl property_key. rewrite Hget.
  apply (random_element_own_in responses_tutor). discriminate.
Qed.

(** The greeting branch has no fallback: for the same personas it throws. *)
Lemma greeting_without_pool_throws (random : N) (message : string)
    (persona : Persona) (context : option Context) :
  classify message = Greeting ->
  get greetings (id persona) = None ->
  generatePersonaResponse random message (Own persona) context
  = Throw (TypeError "Cannot read properties of undefined (reading 'length')").
Proof.
  intros Hc Hget. rewrite generatePersonaResponse_by_class, Hc.
  simpl persona_id. simpl property_key. rewrite Hget. reflexivity.
Qed.

(** C1, evaluated. The persona id "unknown-id" has no pool. On the greeting
    "hi" the selector throws a [TypeError] instead of returning a member of
    the tutor Greeting pool, for every entropy; on a general message it does
    fall back to the tutor General pool. Over HTTP the same happens for the
    persona id "constructor", which the registry lookup resolves to an
    inherited member without an [id]: the greeting request ends in a 500. *)
Theorem greeting_fallback_missing :
  pool_of (id unknown_persona) Greeting = None /\
  pool_of (id unknown_persona) General = None /\
  classify "hi" = Greeting /\
  (forall random context,
      generatePersonaResponse random "hi" (Own unknown_persona) context
      = Throw (TypeError
                 "Cannot read properties of undefined (reading 'length')")) /\
  (forall random context,
      exists s,
        generatePersonaResponse random "What is recursion?"
          (Own unknown_persona) context = Return (Some s) /\
        In s responses_tutor) /\
  (forall random sessionId context,
      snd (post_api_chat initial_server random
             {| message := Some "hi"; personaId := Some "constructor";
                sessionId := sessionId; context := context |})
      = {| status := 500; payload := ErrorBody "Internal server error" |}).
Proof.
  repeat split.
  - intros random context.
    apply general_falls_back_to_tutor; reflexivity.
Qed.

End FallbackSpec.

(** ** The HTTP handlers *)

Module ChatSpec.

Import JsString Js Backend JsStringFacts JsFacts SelectorSpec.

Lemma truthy_none_iff (v : option string) :
  truthy v = None <-> falsy v = true.
Proof.
  unfold truthy. destruct (falsy v) eqn:E; [tauto|].
  destruct v; [|discriminate]. split; discriminate.
Qed.

Lemma truthy_some (v : option string) (s : string) :
  truthy v = Some s -> v = Some s /\ s <> "".
Proof.
  unfold truthy. destruct (falsy v) eqn:E; [discriminate|].
  intros ->. split; [reflexivity|]. intros ->. discriminate.
Qed.

(** A missing or empty message, or a missing or empty persona id, is
    answered with 400, and the server is left as it was. *)
Lemma chat_missing_field_400 (srv : server) (random : N) (req : ChatRequest) :
  falsy (message req) = true \/ falsy (personaId req) = true ->
  post_api_chat srv random req =
  (srv, {| status := 400;
           payload := ErrorBody "Message and personaId are required" |}).
Proof.
  intros H. unfold post_api_chat.
  destruct H as [H | H]; apply truthy_none_iff in H; rewrite H.
  - reflexivity.
  - destruct (truthy (message req)); reflexivity.
Qed.

(** A persona id that is neither registered nor the name of an inherited
    member is answered with 404. *)
Lemma chat_unknown_persona_404 (srv : server) (random : N) (req : ChatRequest)
    (msg pid : string) :
  truthy (message req) = Some msg ->
  truthy (personaId req) = Some pid ->
  own_property (registry srv) pid = None ->
  ~ In pid object_prototype_members ->
  post_api_chat srv random req =
  (srv, {| status := 404; payload := ErrorBody "Persona not found" |}).
Proof.
  intros Hm Hp Hown Hinh. unfold post_api_chat. rewrite Hm, Hp.
  assert (Hget : get (registry srv) pid = None)
    by (apply get_undefined; split; assumption).
  rewrite Hget. reflexivity.
Qed.

(** C7, evaluated. "constructor" is not a registered persona id, yet the
    handler does not answer 404: the registry lookup returns the member
    inherited from [Object.prototype], and a general message is answered with
    status 200 and a string selected from the tutor General pool. *)
Theorem chat_inherited_key_not_404 :
  own_property (registry initial_server) "constructor" = None /\
  forall random,
  exists s,
    In s responses_tutor /\
    post_api_chat initial_server random inherited_key_request =
    (initial_server,
     {| status := 200;
        payload := ChatBody {|
          response_message := Some s;
          response_personaId := "constructor";
          response_traits := None;
          confidence := (85 # 100)%Q;
          suggestedActions :=
            ["Add to Personality"; "Ask Follow-up"; "Change Topic"] |} |}).
Proof.
  split; [reflexivity|]. intros random.
  destruct (random_element_own_in responses_tutor random) as [s [Hs Hin]];
    [discriminate|].
  exists s. split; [exact Hin|].
  assert (E : post_api_chat initial_server random inherited_key_request =
              match random_element (Some (Own responses_tutor)) random with
              | Return response =>
                  (initial_server,
                   {| status := 200;
                      payload := ChatBody {|
                        response_message := response;
                        response_personaId := "constructor";
                        response_traits := None;
                        confidence := (85 # 100)%Q;
                        suggestedActions :=
                          ["Add to Personality"; "Ask Follow-up";
                           "Change Topic"] |} |})
              | Throw e =>
                  (console_write initial_server (ChatErrorLog e),
                   {| status := 500;
                      payload := ErrorBody "Internal server error" |})
              end) by reflexivity.
  rewrite E.
  rewrite Hs. reflexivity.
Qed.

(** C8, evaluated. A successful chat answer always carries the selected
    string, the request's persona id, the confidence 0.85 and the three fixed
    suggested actions, and for a persona of the registry its trait list. But
    "constructor" is answered successfully although it is no persona of the
    registry: the lookup returns the member inherited from
    [Object.prototype], which has no [traits], and the answer carries no
    trait list at all. *)
Theorem chat_success_without_traits :
  own_property (registry initial_server) "constructor" = None /\
  (forall random,
   exists s,
     In s responses_tutor /\
     snd (post_api_chat initial_server random inherited_key_request) =
     {| status := 200;
        payload := ChatBody {|
          response_message := Some s;
          response_personaId := "constructor";
          response_traits := None;
          confidence := (85 # 100)%Q;
          suggestedActions :=
            ["Add to Personality"; "Ask Follow-up"; "Change Topic"] |} |}) /\
  (forall srv random req r,
      snd (post_api_chat srv random req)
      = {| status := 200; payload := ChatBody r |} ->
      personaId req = Some (response_personaId r) /\
      confidence r = (85 # 100)%Q /\
      suggestedActions r
      = ["Add to Personality"; "Ask Follow-up"; "Change Topic"] /\
      exists msg found,
        message req = Some msg /\
        get (registry srv) (response_personaId r) = Some found /\
        generatePersonaResponse random msg found (context req)
        = Return (response_message r) /\
        match found with
        | Own persona => response_traits r = Some (traits persona)
        | Inherited _ => response_traits r = None
        end).
Proof.
  split; [reflexivity|]. split.
  - intros random.
    destruct (random_element_own_in responses_tutor random) as [s [Hs Hin]];
      [discriminate|].
    exists s. split; [exact Hin|].
    assert (E : snd (post_api_chat initial_server random inherited_key_request)
                = match random_element (Some (Own responses_tutor)) random with
                  | Return response =>
                      {| status := 200;
                         payload := ChatBody {|
                           response_message := response;
                           response_personaId := "constructor";
                           response_traits := None;
                           confidence := (85 # 100)%Q;
                           suggestedActions :=
                             ["Add to Personality"; "Ask Follow-up";
                              "Change Topic"] |} |}
                  | Throw e =>
                      {| status := 500;
                         payload := ErrorBody "Internal server error" |}
                  end).
    { change (post_api_chat initial_server random inherited_key_request)
        with (match random_element (Some (Own responses_tutor)) random with
              | Return response =>
                  (initial_server,
                   {| status := 200;
                      payload := ChatBody {|
                        response_message := response;
                        response_personaId := "constructor";
                        response_traits := None;
                        confidence := (85 # 100)%Q;
                        suggestedActions :=
                          ["Add to Personality"; "Ask Follow-up";
                           "Change Topic"] |} |})
              | Throw e =>
                  (console_write initial_server (ChatErrorLog e),
                   {| status := 500;
                      payload := ErrorBody "Internal server error" |})
              end).
      destruct (random_element (Some (Own responses_tutor)) random);
        reflexivity. }
    rewrite E, Hs. reflexivity.
  - intros srv random req r. unfold post_api_chat.
    destruct (truthy (message req)) as [msg|] eqn:Hm; [|discriminate].
    destruct (truthy (personaId req)) as [pid|] eqn:Hp; [|discriminate].
    apply truthy_some in Hm. apply truthy_some in Hp.
    destruct Hm as [Hm _]. destruct Hp as [Hp _].
    destruct (get (registry srv) pid) as [found|] eqn:Hget; [|discriminate].
    destruct (generatePersonaResponse random msg found (context req))
      as [selected|e] eqn:Hgen; [|discriminate].
    simpl. intros H. inversion H; subst r; clear H. simpl.
    repeat (split; [assumption || reflexivity|]).
    exists msg, found. repeat (split; [assumption|]).
    destruct found; reflexivity.
Qed.

(** C9. Whatever its five fields hold, a personality update is answered
    with status 200 and [success: true], and the persona registry after the
    request is the registry before it. *)
Theorem personality_update_acknowledged (srv : server)
    (req : PersonalityUpdate) :
  snd (put_api_personality srv req) =
  {| status := 200;
     payload := UpdateBody true "Personality updated successfully" |} /\
  registry (fst (put_api_personality srv req)) = registry srv.
Proof. split; reflexivity. Qed.

(** No request changes the registry. *)
Lemma handle_preserves_registry (srv : server) (r : request) :
  registry (fst (handle srv r)) = registry srv.
Proof.
  destruct r as [random req | req]; simpl; [|reflexivity].
  unfold post_api_chat.
  destruct (truthy (message req)); [|reflexivity].
  destruct (truthy (personaId req)); [|reflexivity].
  destruct (get (registry srv) _); [|reflexivity].
  destruct (generatePersonaResponse _ _ _ _); reflexivity.
Qed.

Lemma serve_preserves_registry (rs : list request) (srv : server) :
  registry (serve srv rs) = registry srv.
Proof.
  revert srv. unfold serve.
  induction rs as [|r rs IH]; intros srv; simpl; [reflexivity|].
  rewrite IH. apply handle_preserves_registry.
Qed.

(** The same greeting for the tutor, sent from two sessions with different
    contexts, is handled identically. *)
Example sample_requests_agree (random : N) :
  post_api_chat initial_server random sample_request =
  post_api_chat initial_server random sample_request_other_session.
Proof. reflexivity. Qed.

(** C10. The selector's completion does not depend on its [context]
    argument, and the chat handler's result (response and server state)
    does not depend on the request's [sessionId] or [context]: for the same
    entropy, message and persona id they are equal. *)
Theorem chat_ignores_session_and_context :
  (forall random msg persona context1 context2,
      generatePersonaResponse random msg persona context1 =
      generatePersonaResponse random msg persona context2) /\
  (forall srv random msg pid sessionId1 context1 sessionId2 context2,
      post_api_chat srv random
        {| message := msg; personaId := pid;
           sessionId := sessionId1; context := context1 |} =
      post_api_chat srv random
        {| message := msg; personaId := pid;
           sessionId := sessionId2; context := context2 |}).
Proof. split; reflexivity. Qed.

End ChatSpec.

(** ** Navigation *)

Module NavigationSpec.

Import Js App.

(** The state after clicking the tutor planet in the initial view. *)
Lemma reachable_tutor_focus : reachable (handlePlanetClick tutor initial).
Proof.
  apply (reachable_step initial); [exact reachable_initial|].
  apply (step_event initial (ClickPlanet tutor)).
  apply offered_planet; [reflexivity | simpl; tauto].
Qed.

(** Planet, trait, then the trait panel's back button. *)
Lemma reachable_after_back :
  reachable
    (backToPersona
       (handleTraitClick curious origin (handlePlanetClick tutor initial))).
Proof.
  eapply reachable_step.
  - eapply reachable_step; [exact reachable_tutor_focus|].
    apply (step_event _ (ClickTrait curious origin)).
    apply (offered_trait _ tutor); [reflexivity | reflexivity | simpl; tauto].
  - apply (step_event _ ClickBackToPersona).
    apply (offered_back_to_persona _ curious); reflexivity.
Qed.

(** C2, refuted as stated. After selecting the tutor planet and going back
    to the solar view, [targetPosition] still holds the tutor's position
    (4,0,0), not (0,0,0). *)
Lemma backToSolar_keeps_targetPosition :
  selectedPersona (handlePlanetClick tutor initial) = Some tutor /\
  targetPosition (handleBackToSolar (handlePlanetClick tutor initial))
  = (4 # 1, 0 # 1, 0 # 1)%Q /\
  targetPosition (handleBackToSolar (handlePlanetClick tutor initial))
  <> origin.
Proof. repeat split. discriminate. Qed.

(** C2, amended. From any state, going back to the solar view sets the
    stage to [solar], clears both selections and leaves [targetPosition] as
    it was, while the point the camera looks at becomes (0,0,0); selecting a
    persona sets the stage to [planet] and [targetPosition] to the persona's
    position. *)
Theorem backToSolar_and_selectPersona (st : state) (p : AIPersona) :
  handleBackToSolar st =
  {| stage := solar; selectedPersona := None; selectedTrait := None;
     targetPosition := targetPosition st; isChatOpen := isChatOpen st |} /\
  lookAt (handleBackToSolar st) = origin /\
  stage (handlePlanetClick p st) = planet /\
  selectedPersona (handlePlanetClick p st) = Some p /\
  targetPosition (handlePlanetClick p st) = persona_position p /\
  lookAt (handlePlanetClick p st) = persona_position p.
Proof. repeat split. Qed.

(** C3, refuted as stated. With the tutor focused, selecting a trait that
    belongs to the gym persona is not rejected: the state changes to a trait
    focus on that trait. *)
Lemma selectTrait_foreign_trait_proceeds :
  selectedPersona (handlePlanetClick tutor initial) = Some tutor /\
  ~ In spartan_coach (traits tutor) /\
  handleTraitClick spartan_coach origin (handlePlanetClick tutor initial)
  <> handlePlanetClick tutor initial /\
  stage (handleTraitClick spartan_coach origin
           (handlePlanetClick tutor initial)) = trait /\
  selectedTrait (handleTraitClick spartan_coach origin
                   (handlePlanetClick tutor initial)) = Some spartan_coach.
Proof.
  repeat split.
  - simpl. intros [H | [H | [H | [H | []]]]]; discriminate H.
  - discriminate.
Qed.

(** C3, amended. The trait handler checks nothing and cannot fail: for
    every state, trait and position it moves to the [trait] stage with that
    trait and position and keeps the selected persona and the chat flag. The
    rendered tree offers the click only in the [planet] stage and only for a
    trait of the selected persona. *)
Theorem selectTrait_unchecked (st : state) (t : Trait) (pos : position) :
  handleTraitClick t pos st =
  {| stage := trait; selectedPersona := selectedPersona st;
     selectedTrait := Some t; targetPosition := pos;
     isChatOpen := isChatOpen st |} /\
  (offered st (ClickTrait t pos) <->
   stage st = planet /\
   exists persona, selectedPersona st = Some persona /\ In t (traits persona)).
Proof.
  split; [reflexivity|]. split.
  - intros H. inversion H; subst. eauto.
  - intros [Hs [persona [Hp Hin]]]. eapply offered_trait; eassumption.
Qed.

Lemma step_preserves_invariant (st st' : state) :
  focus_invariant st -> step st st' -> focus_invariant st'.
Proof.
  intros Inv Hstep. destruct Hstep as [st ev Hoff].
  unfold focus_invariant in *.
  destruct Hoff as [st persona Hs Hin | st persona t pos Hs Hp Hin
                   | st t Hs Ht | st persona Hs Hp | st t Hs Ht | st Hc];
    simpl; try rewrite Hs in Inv; eauto.
  destruct Inv as (persona & t' & Hp & _). eauto.
Qed.

Lemma reachable_invariant (st : state) :
  reachable st -> focus_invariant st.
Proof.
  induction 1 as [|st st' _ IH Hstep].
  - split; reflexivity.
  - exact (step_preserves_invariant st st' IH Hstep).
Qed.

(** In a reachable trait focus, the focused trait belongs to the focused
    persona. *)
Lemma reachable_trait_owned (st : state) :
  reachable st -> stage st = trait ->
  exists persona t,
    selectedPersona st = Some persona /\ selectedTrait st = Some t /\
    In t (traits persona).
Proof.
  intros Hr Hs. apply reachable_invariant in Hr.
  unfold focus_invariant in Hr. rewrite Hs in Hr. exact Hr.
Qed.

(** C4, refuted as stated. Planet, trait, back: the stage is [planet]
    again while [selectedTrait] still holds the trait. *)
Lemma selectedTrait_survives_back :
  reachable
    (backToPersona
       (handleTraitClick curious origin (handlePlanetClick tutor initial))) /\
  stage
    (backToPersona
       (handleTraitClick curious origin (handlePlanetClick tutor initial)))
  = planet /\
  selectedTrait
    (backToPersona
       (handleTraitClick curious origin (handlePlanetClick tutor initial)))
  = Some curious.
Proof. repeat split. exact reachable_after_back. Qed.

(** C4, amended. In every reachable state a persona is selected whenever
    the stage is not [solar], and a trait is selected only when the stage is
    not [solar] (the planet stage keeps the trait left by the back button). *)
Theorem reachable_focus_invariant (st : state) :
  reachable st ->
  (stage st <> solar -> selectedPersona st <> None) /\
  (selectedTrait st <> None -> stage st <> solar).
Proof.
  intros Hr. apply reachable_invariant in Hr. unfold focus_invariant in Hr.
  destruct (stage st).
  - destruct Hr as [_ Ht]. split; congruence.
  - destruct Hr as [persona Hp]. split; congruence.
  - destruct Hr as (persona & t & Hp & _). split; congruence.
Qed.

Lemma reachable_focus_invariant_witness :
  reachable
    (backToPersona
       (handleTraitClick curious origin (handlePlanetClick tutor initial))) /\
  (stage
     (backToPersona
        (handleTraitClick curious origin (handlePlanetClick tutor initial)))
   <> solar ->
   selectedPersona
     (backToPersona
        (handleTraitClick curious origin (handlePlanetClick tutor initial)))
   <> None) /\
  (selectedTrait
     (backToPersona
        (handleTraitClick curious origin (handlePlanetClick tutor initial)))
   <> None ->
   stage
     (backToPersona
        (handleTraitClick curious origin (handlePlanetClick tutor initial)))
   <> solar).
Proof.
  split; [exact reachable_after_back|].
  exact (reachable_focus_invariant _ reachable_after_back).
Defined.

End NavigationSpec.

(** ** More on the selector and the chat handler *)

Module HandlerSpec.

Import JsString Js Backend JsStringFacts JsFacts SelectorSpec ChatSpec.

Lemma classify_greeting_test (message : string) :
  classify message = Greeting <-> is_greeting (toLowerCase message) = true.
Proof.
  unfold classify. destruct (is_greeting (toLowerCase message));
    split; congruence.
Qed.

Lemma toLowerCase_app (a b : string) :
  toLowerCase (a ++ b) = toLowerCase a ++ toLowerCase b.
Proof. induction a as [|c a IH]; simpl; [reflexivity | rewrite IH; reflexivity]. Qed.

Lemma string_app_assoc (a b c : string) : (a ++ b) ++ c = a ++ (b ++ c).
Proof. induction a as [|x a IH]; simpl; [reflexivity | rewrite IH; reflexivity]. Qed.

Lemma substring_of_embed (needle s before after : string) :
  substring_of needle s -> substring_of needle (before ++ s ++ after).
Proof.
  intros [b [a ->]]. exists (before ++ b), (a ++ after).
  rewrite !string_app_assoc. reflexivity.
Qed.

(** X1. A message that contains a greeting-classified message anywhere
    inside it is itself classified as a greeting. *)
Theorem greeting_survives_embedding (before message after : string) :
  classify message = Greeting ->
  classify (before ++ message ++ after) = Greeting.
Proof.
  rewrite !classify_greeting_test, !is_greeting_spec, !toLowerCase_app.
  intros [H | [H | H]]; [left | right; left | right; right];
    apply substring_of_embed; exact H.
Qed.

Lemma greeting_survives_embedding_witness :
  classify "hey" = Greeting /\
  classify ("Well, " ++ "hey" ++ " there") = Greeting.
Proof.
  split; [reflexivity|].
  apply (greeting_survives_embedding "Well, " "hey" " there"). reflexivity.
Defined.

(** The selector on a persona with pools of its own. *)
Lemma registered_selects_from_pool (persona : Persona) (random : N)
    (message : string) (context : option Context) :
  In (id persona) defined_pool_ids ->
  exists pool s,
    pool_of (id persona) (classify message) = Some pool /\
    generatePersonaResponse random message (Own persona) context
    = Return (Some s) /\
    In s pool.
Proof.
  intros Hid.
  destruct (pool_of_defined (id persona) Hid)
    as (gp & rp & Hg & Hgl & Hr & Hrl).
  rewrite generatePersonaResponse_by_class.
  simpl persona_id. simpl property_key.
  destruct (classify message).
  - exists gp. rewrite (get_own greetings _ gp Hg).
    destruct (random_element_own_in gp random) as [s [Hs Hin]];
      [intros ->; discriminate|].
    exists s. auto.
  - exists rp. rewrite (get_own responses _ rp Hr). simpl or_else.
    destruct (random_element_own_in rp random) as [s [Hs Hin]];
      [intros ->; discriminate|].
    exists s. auto.
Qed.

(** On success the [message] field is a string of one of the pools. *)
Lemma chat_success_message_from_pool (random : N) (req : ChatRequest)
    (r : ChatResponse) :
  payload (snd (post_api_chat initial_server random req)) = ChatBody r ->
  exists s pool c pid,
    response_message r = Some s /\ pool_of pid c = Some pool /\ In s pool.
Proof.
  unfold post_api_chat.
  destruct (truthy (message req)) as [msg|]; [|destruct (truthy (personaId req)); discriminate].
  destruct (truthy (personaId req)) as [pid|]; [|discriminate].
  destruct (get (registry initial_server) pid) as [persona|] eqn:Hget;
    [|discriminate].
  assert (Hp : (exists p, persona = Own p /\ In (id p) defined_pool_ids) \/
               exists k, persona = Inherited k).
  { apply get_some_cases in Hget.
    destruct Hget as [[p [-> Hown]] | [-> _]]; [left | right; eauto].
    exists p. split; [reflexivity|].
    apply own_property_In in Hown. simpl in Hown.
    destruct Hown as [H | [H | [H | []]]]; inversion H; subst; simpl; tauto. }
  destruct Hp as [[p [-> Hid]] | [k ->]].
  - destruct (registered_selects_from_pool p random msg (context req) Hid)
      as (pool & s & Hpool & Hs & Hin).
    rewrite Hs. simpl. intros H. inversion H; subst; clear H. simpl.
    eauto 8.
  - rewrite generatePersonaResponse_by_class. simpl persona_id.
    destruct (classify msg).
    + discriminate.
    + destruct (random_element_own_in responses_tutor random) as [s [Hs Hin]];
        [discriminate|].
      change (random_element
                (or_else (get responses (property_key None))
                         (get responses "tutor")) random)
        with (random_element (Some (Own responses_tutor)) random).
      rewrite Hs. simpl. intros H. inversion H; subst; clear H. simpl.
      exists s, responses_tutor, General, "tutor". auto.
Qed.







End HandlerSpec.

(** ** The chat handler's answers and the server state *)

Module ServerSpec.

Import JsString Js Backend Routes JsStringFacts JsFacts SelectorSpec ChatSpec
  HandlerSpec.

Lemma truthy_cases (v : option string) :
  (truthy v = None /\ falsy v = true) \/
  (exists s, truthy v = Some s /\ v = Some s /\ falsy v = false).
Proof.
  unfold truthy. destruct (falsy v) eqn:E; [left; auto|].
  destruct v as [s|]; [|discriminate]. right. exists s. auto.
Qed.

(** X4. The chat handler answers with status 200, 400, 404 or 500 and no
    other; 400 exactly when the message or the persona id is missing or
    empty; 404 exactly when both are present and the persona id is neither a
    key of the registry nor the name of a member every object inherits. *)
Theorem chat_status_cases (srv : server) (random : N) (req : ChatRequest) :
  In (status (snd (post_api_chat srv random req))) [200; 400; 404; 500] /\
  (status (snd (post_api_chat srv random req)) = 400 <->
   falsy (message req) = true \/ falsy (personaId req) = true) /\
  (status (snd (post_api_chat srv random req)) = 404 <->
   falsy (message req) = false /\
   exists pid,
     personaId req = Some pid /\ pid <> "" /\
     own_property (registry srv) pid = None /\
     ~ In pid object_prototype_members).
Proof.
  unfold post_api_chat.
  destruct (truthy_cases (message req)) as [[Hm Hfm] | [msg [Hm [Hm' Hfm]]]];
    rewrite Hm, Hfm.
  { simpl. repeat split; try tauto; try discriminate.
    intros [H _]; discriminate. }
  destruct (truthy_cases (personaId req)) as [[Hp Hfp] | [pid [Hp [Hp' Hfp]]]];
    rewrite Hp, Hfp.
  { simpl. repeat split; try tauto; try discriminate.
    intros [_ [pid [Hpid [Hne _]]]]. rewrite Hpid in Hfp. simpl in Hfp.
    apply String.eqb_eq in Hfp. contradiction. }
  assert (Hne : pid <> "").
  { intros ->. rewrite Hp' in Hfp. discriminate. }
  destruct (get (registry srv) pid) as [persona|] eqn:Hget.
  - assert (Hnot : ~ (own_property (registry srv) pid = None /\
                      ~ In pid object_prototype_members)).
    { intros H. apply get_undefined in H. congruence. }
    destruct (generatePersonaResponse random msg persona (context req));
      simpl; (split; [tauto|]); split;
        (split; [discriminate|]).
    + intros [H | H]; discriminate.
    + intros [_ [pid' [Hpid [_ [H1 H2]]]]].
      rewrite Hp' in Hpid. inversion Hpid; subst. tauto.
    + intros [H | H]; discriminate.
    + intros [_ [pid' [Hpid [_ [H1 H2]]]]].
      rewrite Hp' in Hpid. inversion Hpid; subst. tauto.
  - apply get_undefined in Hget. destruct Hget as [Hown Hinh].
    simpl. split; [tauto|]. split; split; try discriminate.
    + intros [H | H]; discriminate.
    + intros _. split; [reflexivity|]. exists pid. auto.
    + reflexivity.
Qed.

Lemma serve_initial_registry (rs : list request) :
  registry (serve initial_server rs) = aiPersonas.
Proof. rewrite serve_preserves_registry. reflexivity. Qed.





(** X6. The chat handler touches the server state only when it answers
    500: it then appends one line to the console, the caught [TypeError];
    with any other status the server is exactly as before. *)
Theorem chat_logs_only_failures (srv : server) (random : N)
    (req : ChatRequest) :
  fst (post_api_chat srv random req) =
  if (status (snd (post_api_chat srv random req)) =? 500)%nat
  then console_write srv
         (ChatErrorLog
            (TypeError "Cannot read properties of undefined (reading 'length')"))
  else srv.
Proof.
  unfold post_api_chat.
  destruct (truthy (message req)) as [msg|]; [|reflexivity].
  destruct (truthy (personaId req)) as [pid|]; [|reflexivity].
  destruct (get (registry srv) pid) as [persona|]; [|reflexivity].
  rewrite generatePersonaResponse_by_class.
  destruct (classify msg).
  - destruct (get greetings (property_key (persona_id persona)))
      as [[pool | k]|]; reflexivity.
  - destruct (get responses (property_key (persona_id persona)))
      as [[pool | k]|]; reflexivity.
Qed.

Lemma handle_console_grows (srv : server) (r : request) :
  exists lines,
    console (fst (handle srv r)) = (console srv ++ lines)%list /\
    length lines <= 1.
Proof.
  assert (Hsame : exists lines,
             console srv = (console srv ++ lines)%list /\ length lines <= 1).
  { exists []. rewrite app_nil_r. split; [reflexivity | simpl; lia]. }
  destruct r as [random req | req]; simpl.
  - unfold post_api_chat.
    destruct (truthy (message req)) as [msg|]; [|exact Hsame].
    destruct (truthy (personaId req)) as [pid|]; [|exact Hsame].
    destruct (get (registry srv) pid) as [persona|]; [|exact Hsame].
    destruct (generatePersonaResponse random msg persona (context req));
      [exact Hsame|].
    eexists. split; [reflexivity | simpl; lia].
  - eexists. split; [reflexivity | simpl; lia].
Qed.

(** X7. Over any sequence of chat and personality requests the persona
    registry stays what it was, and the console only grows, by at most one
    line per request. *)
Theorem serve_keeps_registry_and_grows_console (rs : list request)
    (srv : server) :
  registry (serve srv rs) = registry srv /\
  exists lines,
    console (serve srv rs) = (console srv ++ lines)%list /\
    length lines <= length rs.
Proof.
  split; [apply serve_preserves_registry|].
  revert srv. unfold serve.
  induction rs as [|r rs IH]; intros srv; simpl.
  - exists []. rewrite app_nil_r. split; [reflexivity | simpl; lia].
  - destruct (IH (fst (handle srv r))) as [lines [Hc Hl]].
    destruct (handle_console_grows srv r) as [first [Hf Hfl]].
    exists (first ++ lines)%list. rewrite Hc, Hf, <- app_assoc.
    split; [reflexivity|]. rewrite length_app. lia.
Qed.



(** X9. Every persona the list route returns can be fetched by its id
    through the detail route, which answers 200 with that same persona,
    whatever requests the server handled before. *)
Theorem listed_persona_found_by_id (rs : list request) (persona : Persona) :
  In persona (values (registry (serve initial_server rs))) ->
  get_api_personas_id (serve initial_server rs) (id persona) =
  {| get_status := 200; get_payload := PersonaDetail (Own persona) |}.
Proof.
  rewrite serve_initial_registry. unfold get_api_personas_id.
  rewrite serve_initial_registry. simpl.
  intros [<- | [<- | [<- | []]]]; reflexivity.
Qed.

Lemma listed_persona_found_by_id_witness :
  In spiritual (values (registry (serve initial_server [PostChat 3 sample_request]))) /\
  get_api_personas_id (serve initial_server [PostChat 3 sample_request])
    (id spiritual) =
  {| get_status := 200; get_payload := PersonaDetail (Own spiritual) |}.
Proof.
  assert (H : In spiritual
                (values (registry (serve initial_server
                                     [PostChat 3 sample_request]))))
    by (right; left; reflexivity).
  split; [exact H|].
  exact (listed_persona_found_by_id [PostChat 3 sample_request] spiritual H).
Defined.

(** X10. The detail route answers 404 exactly for keys that are neither
    registered nor names of inherited members; for every other key it
    answers 200 with what the lookup found. *)
Theorem persona_detail_404_iff (srv : server) (key : string) :
  (get_status (get_api_personas_id srv key) = 404 <->
   own_property (registry srv) key = None /\
   ~ In key object_prototype_members) /\
  (get_status (get_api_personas_id srv key) = 200 <->
   exists found, get (registry srv) key = Some found /\
                 get_payload (get_api_personas_id srv key) = PersonaDetail found).
Proof.
  unfold get_api_personas_id. rewrite <- get_undefined.
  destruct (get (registry srv) key) as [found|]; simpl; split; split;
    try discriminate; try reflexivity; eauto.
  intros [found [H _]]. discriminate.
Qed.

End ServerSpec.

(** ** The service class against the backend *)

Module ClientSpec.

Import JsString Js Backend Routes AIService JsStringFacts JsFacts SelectorSpec
  ChatSpec HandlerSpec ServerSpec.

(** The two shapes an answer of the chat handler has. *)
Lemma post_api_chat_shape (srv : server) (random : N) (req : ChatRequest) :
  (exists r,
      snd (post_api_chat srv random req)
      = {| status := 200; payload := ChatBody r |} /\
      confidence r = (85 # 100)%Q /\
      suggestedActions r
      = ["Add to Personality"; "Ask Follow-up"; "Change Topic"]) \/
  (exists code e,
      In code [400; 404; 500] /\
      snd (post_api_chat srv random req)
      = {| status := code; payload := ErrorBody e |}).
Proof.
  unfold post_api_chat.
  destruct (truthy (message req)) as [msg|];
    [|right; exists 400; eexists; split; [simpl; tauto | reflexivity]].
  destruct (truthy (personaId req)) as [pid|];
    [|right; exists 400; eexists; split; [simpl; tauto | reflexivity]].
  destruct (get (registry srv) pid) as [persona|];
    [|right; exists 404; eexists; split; [simpl; tauto | reflexivity]].
  destruct (generatePersonaResponse random msg persona (context req)).
  - left. eexists. repeat split.
  - right. exists 500. eexists. split; [simpl; tauto | reflexivity].
Qed.

(** X11. [sendMessage] resolves exactly when the backend is reached and
    answers 200, with the body of that answer; when the backend is not
    reached it rejects with the transport's error and the server is
    untouched; when the backend answers 400, 404 or 500 it rejects with
    "HTTP error! status: " followed by that very status. *)
Theorem sendMessage_settles (net : network) (srv : server) (random : N)
    (request : ChatRequest) :
  match sendMessage net srv random request with
  | (srv', Resolved b) =>
      net = Online /\
      post_api_chat srv random request
      = (srv', {| status := 200; payload := b |}) /\
      exists r, b = ChatBody r
  | (srv', Rejected message) =>
      (net = Offline message /\ srv' = srv) \/
      (net = Online /\
       srv' = fst (post_api_chat srv random request) /\
       message = http_error (status (snd (post_api_chat srv random request))) /\
       (status (snd (post_api_chat srv random request)) = 400 /\
        message = "HTTP error! status: 400" \/
        status (snd (post_api_chat srv random request)) = 404 /\
        message = "HTTP error! status: 404" \/
        status (snd (post_api_chat srv random request)) = 500 /\
        message = "HTTP error! status: 500"))
  end.
Proof.
  unfold sendMessage. destruct net as [|reason]; [|left; auto].
  destruct (post_api_chat srv random request) as [srv' response] eqn:E.
  pose proof (post_api_chat_shape srv random request) as H.
  rewrite E in H. simpl in H.
  destruct H as [[r [-> _]] | [code [e [Hcode ->]]]].
  - simpl. repeat split. eauto.
  - simpl in Hcode.
    destruct Hcode as [<- | [<- | [<- | []]]]; simpl;
      right; (split; [reflexivity|]); (split; [reflexivity|]);
      (split; [reflexivity|]); tauto.
Qed.

(** X12. The simulating snapshot of [sendMessage] never rejects. Whether
    the answer is the backend's chat body or is made up after a failure (the
    backend not reached, or a status other than 200), it carries the
    confidence 0.85 and the same three suggested actions; a made-up answer
    has an empty trait list and echoes the request's persona id. *)
Theorem sendMessage_simulating_never_rejects (net : network) (srv : server)
    (random : N) (request : ChatRequest) :
  exists v,
    snd (sendMessage_simulating net srv random request) = Resolved v /\
    view_confidence v = Some (85 # 100)%Q /\
    view_suggestedActions v
    = Some ["Add to Personality"; "Ask Follow-up"; "Change Topic"] /\
    ((exists r,
         net = Online /\
         snd (post_api_chat srv random request)
         = {| status := 200; payload := ChatBody r |} /\
         v = view (ChatBody r)) \/
     (exists message,
         v = simulated_response request message /\
         view_traits v = Some [] /\
         view_personaId v = personaId request /\
         (net = Offline message \/
          net = Online /\
          status (snd (post_api_chat srv random request)) <> 200))).
Proof.
  unfold sendMessage_simulating. destruct net as [|reason].
  - destruct (post_api_chat srv random request) as [srv' response] eqn:E.
    pose proof (post_api_chat_shape srv random request) as H.
    rewrite E in H. simpl in H.
    destruct H as [[r [-> [Hc Ha]]] | [code [e [Hcode ->]]]].
    + simpl. eexists. split; [reflexivity|]. simpl. rewrite Hc, Ha.
      split; [reflexivity|]. split; [reflexivity|].
      left. exists r. rewrite Hc, Ha. auto.
    + simpl in Hcode.
      destruct Hcode as [<- | [<- | [<- | []]]]; simpl;
        eexists; (split; [reflexivity|]); repeat split;
        right; eexists; repeat split; right; split;
        [reflexivity | discriminate | reflexivity | discriminate
        | reflexivity | discriminate].
  - simpl. eexists. split; [reflexivity|]. repeat split.
    right. exists reason. repeat split. left. reflexivity.
Qed.

(** X13. [updatePersonality] never throws and reports [true] exactly when
    the backend is reached, whatever the update names, existing or not; the
    persona registry is the same afterwards. *)
Theorem updatePersonality_reports_reachability (net : network) (srv : server)
    (update : PersonalityUpdate) :
  (snd (updatePersonality net srv update) = true <-> net = Online) /\
  registry (fst (updatePersonality net srv update)) = registry srv.
Proof.
  destruct net as [|reason]; simpl; split; try reflexivity;
    split; try reflexivity; discriminate.
Qed.

Lemma with_tags_id (t : Trait) : with_tags t = t.
Proof. destruct t; reflexivity. Qed.

Lemma map_with_tags (l : list Trait) : map with_tags l = l.
Proof.
  induction l as [|t l IH]; simpl; [reflexivity|].
  rewrite with_tags_id, IH. reflexivity.
Qed.

(** X14. When the backend is reached, [getAllPersonas] returns, whatever
    requests the server handled before, one persona per planet of the scene
    and in the same order: same id and name, the position the scene gives
    that planet, and only traits the scene lists for it. When the backend is
    not reached it returns the empty list. *)
Theorem getAllPersonas_matches_scene (rs : list request) :
  Forall2
    (fun fetched planet =>
       fetched_id fetched = App.id planet /\
       fetched_name fetched = App.name planet /\
       fetched_position fetched = Own (App.persona_position planet) /\
       incl (fetched_traits fetched) (App.traits planet))
    (getAllPersonas Online (serve initial_server rs)) App.aiPersonas /\
  forall reason srv, getAllPersonas (Offline reason) srv = [].
Proof.
  split; [|reflexivity].
  unfold getAllPersonas, get_api_personas. simpl ok. cbv iota.
  simpl get_payload. rewrite serve_initial_registry.
  unfold values, aiPersonas, App.aiPersonas. simpl map.
  unfold transform. rewrite !map_with_tags.
  assert (Hincl : forall (l l' : list Trait),
             (forall t, In t l -> In t l') -> incl l l')
    by (intros l l' H; exact H).
  apply Forall2_cons; [|apply Forall2_cons; [|apply Forall2_cons;
                                               [|apply Forall2_nil]]];
    (split; [reflexivity|]); (split; [reflexivity|]);
    (split; [reflexivity|]); apply Hincl; simpl; intros t Ht;
    repeat (destruct Ht as [<- | Ht]; [tauto|]); contradiction.
Qed.

(** X15. For a persona id that is neither in the position table nor the
    name of an inherited member, [getPersonaPosition] is the origin. *)
Theorem getPersonaPosition_default (personaId : string) :
  ~ In personaId ["tutor"; "spiritual"; "gym"] ->
  ~ In personaId object_prototype_members ->
  getPersonaPosition personaId = Own App.origin.
Proof.
  intros Hown Hinh. unfold getPersonaPosition.
  assert (Hget : get positions personaId = None).
  { apply get_undefined. split; [|exact Hinh].
    destruct (own_property positions personaId) as [pos|] eqn:E;
      [|reflexivity].
    exfalso. apply Hown. apply own_property_In in E. simpl in E.
    destruct E as [E | [E | [E | []]]]; inversion E; simpl; tauto. }
  rewrite Hget. reflexivity.
Qed.

Lemma getPersonaPosition_default_witness :
  ~ In "poet" ["tutor"; "spiritual"; "gym"] /\
  ~ In "poet" object_prototype_members /\
  getPersonaPosition "poet" = Own App.origin.
Proof.
  assert (H1 : ~ In "poet" ["tutor"; "spiritual"; "gym"]).
  { simpl. intros [H | [H | [H | []]]]; discriminate H. }
  assert (H2 : ~ In "poet" object_prototype_members).
  { simpl. intuition discriminate. }
  repeat (split; [assumption|]).
  exact (getPersonaPosition_default "poet" H1 H2).
Defined.

End ClientSpec.

(** ** More navigation invariants, and the camera *)

Module SceneSpec.

Import Js App Camera NavigationSpec.

(** What is selected in a reachable state is part of the scene. *)
Lemma reachable_selection (st : state) :
  reachable st ->
  (forall persona, selectedPersona st = Some persona -> In persona aiPersonas) /\
  (forall t, selectedTrait st = Some t ->
             exists persona,
               selectedPersona st = Some persona /\ In t (traits persona)).
Proof.
  induction 1 as [|st st' Hr IH Hstep].
  - split; intros x H; discriminate H.
  - destruct IH as [IHp IHt].
    pose proof (reachable_invariant st Hr) as Inv.
    unfold focus_invariant in Inv.
    destruct Hstep as [st ev Hoff].
    destruct Hoff as [st persona Hs Hin | st persona t pos Hs Hp Hin
                     | st t Hs Ht | st persona Hs Hp | st t Hs Ht | st Hc];
      simpl; try (split; assumption).
    + rewrite Hs in Inv. destruct Inv as [_ Hnone]. split.
      * intros p H. inversion H; subst. exact Hin.
      * intros t H. congruence.
    + split; [exact IHp|].
      intros t' H. inversion H; subst. eauto.
    + split; intros x H; discriminate H.
    + split; intros x H; discriminate H.
Qed.

(** X16. In every reachable state the selected persona, if any, is one of
    the scene's planets, and the selected trait, if any, belongs to the
    selected persona's trait list; this holds for the trait left selected by
    the back button too. *)
Theorem reachable_selection_in_scene (st : state) :
  reachable st ->
  match selectedPersona st, selectedTrait st with
  | Some persona, Some t => In persona aiPersonas /\ In t (traits persona)
  | Some persona, None => In persona aiPersonas
  | None, Some _ => False
  | None, None => True
  end.
Proof.
  intros Hr. destruct (reachable_selection st Hr) as [Hp Ht].
  destruct (selectedPersona st) as [persona|];
    destruct (selectedTrait st) as [t|]; auto.
  - split; [auto|]. destruct (Ht t eq_refl) as [p [Hp' Hin]].
    inversion Hp'; subst. exact Hin.
  - destruct (Ht t eq_refl) as [p [Hp' _]]. discriminate.
Qed.

Lemma reachable_selection_in_scene_witness :
  reachable
    (backToPersona
       (handleTraitClick curious origin (handlePlanetClick tutor initial))) /\
  In tutor aiPersonas /\ In curious (traits tutor).
Proof.
  split; [exact reachable_after_back|].
  exact (reachable_selection_in_scene _ reachable_after_back).
Defined.

(** X17. No reachable state is a dead end: outside the solar view the
    back-to-solar button is offered, and pressing it leads to the solar view
    with nothing selected, where every planet can be clicked again. *)
Theorem solar_view_always_one_click_away (st : state) :
  reachable st -> stage st <> solar ->
  offered st ClickBackToSolar /\
  stage (react ClickBackToSolar st) = solar /\
  selectedPersona (react ClickBackToSolar st) = None /\
  selectedTrait (react ClickBackToSolar st) = None /\
  forall persona,
    In persona aiPersonas ->
    offered (react ClickBackToSolar st) (ClickPlanet persona).
Proof.
  intros Hr Hs. pose proof (reachable_invariant st Hr) as Inv.
  unfold focus_invariant in Inv. split.
  - destruct (stage st) eqn:E.
    + contradiction.
    + destruct Inv as [persona Hp].
      exact (offered_back_to_solar_planet st persona E Hp).
    + destruct Inv as (persona & t & _ & Ht & _).
      exact (offered_back_to_solar_trait st t E Ht).
  - repeat split. intros persona Hin.
    apply offered_planet; [reflexivity | exact Hin].
Qed.

Lemma solar_view_always_one_click_away_witness :
  reachable (handlePlanetClick tutor initial) /\
  stage (handlePlanetClick tutor initial) <> solar /\
  offered (handlePlanetClick tutor initial) ClickBackToSolar /\
  stage (react ClickBackToSolar (handlePlanetClick tutor initial)) = solar /\
  selectedPersona (react ClickBackToSolar (handlePlanetClick tutor initial))
  = None /\
  selectedTrait (react ClickBackToSolar (handlePlanetClick tutor initial))
  = None /\
  forall persona,
    In persona aiPersonas ->
    offered (react ClickBackToSolar (handlePlanetClick tutor initial))
      (ClickPlanet persona).
Proof.
  assert (H : stage (handlePlanetClick tutor initial) <> solar)
    by discriminate.
  split; [exact reachable_tutor_focus|]. split; [exact H|].
  exact (solar_view_always_one_click_away _ reachable_tutor_focus H).
Defined.

(** X18. In a reachable state the camera controller never falls through
    to its default while a planet or trait is in focus: in the solar view the
    camera sits at (8,6,8) and looks at the origin; in the planet view it
    looks at the selected planet from the offset (3,2,3); in the trait view
    it looks at the target position from the offset (1,1,1). *)
Theorem camera_follows_stage (st : state) :
  reachable st ->
  match stage st with
  | solar =>
      lookAt st = origin /\ cameraPosition st = (8 # 1, 6 # 1, 8 # 1)%Q
  | planet =>
      exists persona,
        In persona aiPersonas /\ selectedPersona st = Some persona /\
        lookAt st = persona_position persona /\
        cameraPosition st =
        (let '(x, y, z) := persona_position persona in
         (x + (3 # 1), y + (2 # 1), z + (3 # 1))%Q)
  | trait =>
      lookAt st = targetPosition st /\
      cameraPosition st =
      (let '(x, y, z) := targetPosition st in
       (x + (1 # 1), y + (1 # 1), z + (1 # 1))%Q)
  end.
Proof.
  intros Hr. pose proof (reachable_invariant st Hr) as Inv.
  destruct (reachable_selection st Hr) as [Hp _].
  unfold focus_invariant in Inv. unfold lookAt, cameraPosition.
  destruct (stage st).
  - split; reflexivity.
  - destruct Inv as [persona Hsel]. exists persona. rewrite Hsel.
    repeat split. exact (Hp persona Hsel).
  - destruct Inv as (persona & t & Hsel & Ht & _). rewrite ?Hsel, ?Ht.
    split; reflexivity.
Qed.

Lemma camera_follows_stage_witness :
  reachable (handlePlanetClick tutor initial) /\
  exists persona,
    In persona aiPersonas /\
    selectedPersona (handlePlanetClick tutor initial) = Some persona /\
    lookAt (handlePlanetClick tutor initial) = persona_position persona /\
    cameraPosition (handlePlanetClick tutor initial) =
    (let '(x, y, z) := persona_position persona in
     (x + (3 # 1), y + (2 # 1), z + (3 # 1))%Q).
Proof.
  split; [exact reachable_tutor_focus|].
  exact (camera_follows_stage _ reachable_tutor_focus).
Defined.

End SceneSpec.

(** ** The chat panel *)

Module ChatInterfaceSpec.

Import JsString Js Backend Routes AIService ChatInterface JsStringFacts
  JsFacts SelectorSpec ChatSpec HandlerSpec ServerSpec ClientSpec.

Lemma trimStart_cases (s : string) :
  (all_whitespace s = true /\ trimStart s = "") \/
  (all_whitespace s = false /\
   exists c rest, trimStart s = String c rest /\ is_whitespace c = false).
Proof.
  induction s as [|c s IH]; simpl; [left; auto|].
  destruct (is_whitespace c) eqn:E; simpl; [exact IH|].
  right. split; [reflexivity|]. exists c, s. auto.
Qed.

(** [trim] leaves nothing exactly of the strings made of white space. *)
Lemma trim_empty_iff (s : string) :
  String.eqb (trim s) "" = true <-> all_whitespace s = true.
Proof.
  unfold trim.
  destruct (trimStart_cases s) as [[Ha Ht] | [Ha [c [rest [Ht Hc]]]]];
    rewrite Ht, Ha.
  - simpl. tauto.
  - simpl. rewrite Hc. simpl. split; discriminate.
Qed.

Lemma trim_nonempty (s : string) :
  all_whitespace s = false -> String.eqb (trim s) "" = false.
Proof.
  intros H. destruct (String.eqb (trim s) "") eqn:E; [|reflexivity].
  apply trim_empty_iff in E. congruence.
Qed.

(** X19. Sending does nothing when the input is empty or only white space,
    or when no persona is selected: no request is made, and the chat state
    and the server are as before. *)
Theorem send_blank_is_noop (p : option App.AIPersona) (net : network)
    (random : N) (typed requested answered : clock) (srv : server)
    (st : state) :
  all_whitespace (inputText st) = true \/ p = None ->
  startSend p typed requested st = None /\
  handleSendMessage p net random typed requested answered srv st = (srv, st).
Proof.
  intros H.
  assert (Hs : startSend p typed requested st = None).
  { unfold startSend. destruct H as [H | ->].
    - apply trim_empty_iff in H. rewrite H. reflexivity.
    - destruct (String.eqb (trim (inputText st)) ""); reflexivity. }
  split; [exact Hs|]. unfold handleSendMessage. rewrite Hs. reflexivity.
Qed.

Lemma send_blank_is_noop_witness :
  (all_whitespace (inputText (typeText "   " (initial (Some App.tutor)
                                {| millis := 0; date := "d0" |}))) = true \/
   Some App.tutor = None) /\
  startSend (Some App.tutor) {| millis := 1; date := "d1" |}
    {| millis := 1; date := "d1" |}
    (typeText "   " (initial (Some App.tutor) {| millis := 0; date := "d0" |}))
  = None /\
  handleSendMessage (Some App.tutor) Online 0
    {| millis := 1; date := "d1" |} {| millis := 1; date := "d1" |}
    {| millis := 2; date := "d2" |} initial_server
    (typeText "   " (initial (Some App.tutor) {| millis := 0; date := "d0" |}))
  = (initial_server,
     typeText "   " (initial (Some App.tutor) {| millis := 0; date := "d0" |})).
Proof.
  assert (H : all_whitespace
                (inputText (typeText "   "
                   (initial (Some App.tutor) {| millis := 0; date := "d0" |})))
              = true \/ Some App.tutor = None) by (left; reflexivity).
  split; [exact H|].
  exact (send_blank_is_noop (Some App.tutor) Online 0 _ _ _ initial_server _ H).
Defined.

Lemma startSend_some (p : option App.AIPersona) (typed requested : clock)
    (st pending : state) (chatRequest : ChatRequest) :
  startSend p typed requested st = Some (pending, chatRequest) ->
  exists persona,
    p = Some persona /\
    inputText st <> "" /\
    message chatRequest = Some (inputText st) /\
    personaId chatRequest = personaIdFor (App.name persona) /\
    messages pending =
      (messages st ++
       [ {| id := decimal (millis typed); text := Some (inputText st);
            sender := user; timestamp := date typed; persona := None |} ])%list.
Proof.
  unfold startSend.
  destruct (String.eqb (trim (inputText st)) "") eqn:E; [discriminate|].
  destruct p as [persona|]; [|discriminate].
  intros H. inversion H; subst; clear H. exists persona.
  repeat split. intros Hempty. rewrite Hempty in E. discriminate.
Qed.

Lemma remove_nth_length {A : Type} (n : nat) (l : list A) (x : A) :
  nth_error l n = Some x -> S (length (remove_nth n l)) = length l.
Proof.
  revert l. induction n as [|n IH]; intros [|y l]; simpl; try discriminate.
  - reflexivity.
  - intros H. rewrite (IH l H). reflexivity.
Qed.

Lemma count_sender_app (who : Sender) (l l' : list Message) :
  count_sender who (l ++ l')%list = count_sender who l + count_sender who l'.
Proof. unfold count_sender. rewrite filter_app, length_app. reflexivity. Qed.

(** One event appends messages and keeps sends and replies in balance. *)
Lemma panel_step_balance (pn : panel) (ev : panel_event) :
  exists added,
    messages (cells (panel_step pn ev)) = (messages (cells pn) ++ added)%list /\
    count_sender user added + length (in_flight pn) =
    count_sender ai added + length (in_flight (panel_step pn ev)).
Proof.
  assert (Hsame : exists added,
             messages (cells pn) = (messages (cells pn) ++ added)%list /\
             count_sender user added + length (in_flight pn) =
             count_sender ai added + length (in_flight pn)).
  { exists []. rewrite app_nil_r. split; reflexivity. }
  destruct ev as [value | p typed requested | net timestamp
                 | n result answered]; simpl.
  - exact Hsame.
  - destruct (startSend p typed requested (cells pn))
      as [[pending chatRequest]|] eqn:E; [|exact Hsame].
    destruct (startSend_some p typed requested (cells pn) pending chatRequest E)
      as (persona & -> & _ & _ & _ & Hmsgs).
    simpl. eexists. split; [exact Hmsgs|].
    rewrite length_app. simpl. lia.
  - exact Hsame.
  - destruct (nth_error (in_flight pn) n) as [f|] eqn:E; [|exact Hsame].
    simpl. eexists. split; [reflexivity|].
    pose proof (remove_nth_length n (in_flight pn) f E) as Hlen.
    simpl. lia.
Qed.

(** X20. In every interleaving of input edits, sends, health checks and
    settlements, the message list only grows, and replies keep step with
    sends: among the messages added, the user messages plus the requests in
    flight before are as many as the replies plus the requests still in
    flight. So whenever no request is in flight, every text sent has got
    exactly one reply. *)
Theorem replies_keep_step_with_sends (evs : list panel_event) (pn : panel) :
  exists added,
    messages (cells (panel_run pn evs)) = (messages (cells pn) ++ added)%list /\
    count_sender user added + length (in_flight pn) =
    count_sender ai added + length (in_flight (panel_run pn evs)).
Proof.
  revert pn. unfold panel_run.
  induction evs as [|ev evs IH]; intros pn; simpl.
  - exists []. rewrite app_nil_r. split; reflexivity.
  - destruct (panel_step_balance pn ev) as [first [Hf Hfc]].
    destruct (IH (panel_step pn ev)) as [rest [Hr Hrc]].
    exists (first ++ rest)%list. split.
    + rewrite Hr, Hf, app_assoc. reflexivity.
    + rewrite !count_sender_app. lia.
Qed.

(** [handleSendMessage] is the interleaving in which the request settles
    right after it was sent. *)
Lemma handleSendMessage_uninterrupted (p : App.AIPersona) (net : network)
    (random : N) (typed requested answered : clock) (srv : server)
    (st pending : state) (chatRequest : ChatRequest) :
  startSend (Some p) typed requested st = Some (pending, chatRequest) ->
  cells (panel_run {| cells := st; in_flight := [] |}
           [ PressSend (Some p) typed requested;
             Settle 0 (snd (sendMessage net srv random chatRequest))
               answered ])
  = snd (handleSendMessage (Some p) net random typed requested answered
           srv st).
Proof.
  intros H. unfold handleSendMessage, panel_run. simpl. rewrite H. simpl.
  destruct (sendMessage net srv random chatRequest); reflexivity.
Qed.




(** X22. When a request fails, because the backend is not reached or
    because it answers with a status other than 200, its settlement appends
    the fixed simulated text naming the persona, whatever the panel's state
    is by then; neither the transport's error nor the status appears in the
    reply. *)
Theorem failed_send_shows_simulated_reply (p : App.AIPersona) (net : network)
    (random : N) (answered : clock) (srv : server)
    (chatRequest : ChatRequest) (now : state) :
  (exists reason, net = Offline reason) \/
  status (snd (post_api_chat srv random chatRequest)) <> 200 ->
  finishSend p answered (snd (sendMessage net srv random chatRequest)) now
  = {| messages :=
         (messages now ++
          [ {| id := decimal (millis answered + 1);
               text := Some (simulated_text p);
               sender := ai; timestamp := date answered;
               persona := Some (App.name p) |} ])%list;
       inputText := inputText now;
       isTyping := false;
       isBackendConnected := isBackendConnected now |}.
Proof.
  intros Hfail.
  assert (Hrej : exists message,
             snd (sendMessage net srv random chatRequest) = Rejected message).
  { unfold sendMessage. destruct net as [|reason]; [|simpl; eauto].
    destruct Hfail as [[reason H] | Hfail]; [discriminate|].
    pose proof (post_api_chat_shape srv random chatRequest) as H.
    destruct (post_api_chat srv random chatRequest) as [srv' response].
    simpl in H, Hfail.
    destruct H as [[r [-> _]] | [code [e [Hcode ->]]]];
      [simpl in Hfail; congruence|].
    simpl in Hcode.
    destruct Hcode as [<- | [<- | [<- | []]]]; simpl; eauto. }
  destruct Hrej as [message ->]. reflexivity.
Qed.

Lemma failed_send_shows_simulated_reply_witness :
  ((exists reason, Offline "Failed to fetch" = Offline reason) \/
   status (snd (post_api_chat initial_server 0 sample_request)) <> 200) /\
  finishSend App.gym {| millis := 20; date := "d2" |}
    (snd (sendMessage (Offline "Failed to fetch") initial_server 0
            sample_request))
    (typeText "next" (initial None {| millis := 0; date := "d0" |}))
  = {| messages :=
         (messages (typeText "next"
                      (initial None {| millis := 0; date := "d0" |})) ++
          [ {| id := decimal (20 + 1);
               text := Some (simulated_text App.gym);
               sender := ai; timestamp := "d2";
               persona := Some (App.name App.gym) |} ])%list;
       inputText := "next";
       isTyping := false;
       isBackendConnected := false |}.
Proof.
  assert (H : (exists reason, Offline "Failed to fetch" = Offline reason) \/
              status (snd (post_api_chat initial_server 0 sample_request))
              <> 200)
    by (left; exists "Failed to fetch"; reflexivity).
  split; [exact H|].
  exact (failed_send_shows_simulated_reply App.gym (Offline "Failed to fetch")
           0 {| millis := 20; date := "d2" |} initial_server sample_request
           _ H).
Defined.

Lemma lower_char_not_whitespace (c : ascii) :
  is_whitespace (lower_char c) = is_whitespace c.
Proof. destruct c as [[] [] [] [] [] [] [] []]; reflexivity. Qed.






(** X24. After the mount-time health check the connection indicator is on
    exactly when the backend was reached; the check changes nothing else. *)
Theorem checkBackend_reports_reachability (net : network)
    (timestamp : string) (st : state) :
  (isBackendConnected (checkBackend net timestamp st) = true <->
   net = Online) /\
  messages (checkBackend net timestamp st) = messages st /\
  inputText (checkBackend net timestamp st) = inputText st /\
  isTyping (checkBackend net timestamp st) = isTyping st.
Proof.
  destruct net as [|reason]; simpl; repeat split; try reflexivity;
    discriminate.
Qed.

End ChatInterfaceSpec.
